(** * Environmental logger JSON -> netCDF converter: a shallow embedding

    Source: [environmentlogger/environmental_logger_json2netcdf.py].

    The pure parts of the converter are embedded as Rocq functions:
    the static tables, [renameTheValue], the field extractors
    [getListOfWeatherStationValue] and [sensorVariables],
    [handleSpectrometer], [translateTime], the wavelength-delta block of
    [main] and the output-name expression of [mainProgramTrigger].

    Conventions.
    - A Python exception is a value of [exception]; a computation that may
      raise returns a [result].
    - Python floats are idealised as exact rationals ([Q]); equalities
      between numbers are stated with [Qeq] (written [==]).
    - The parsed JSON document is a [json] tree; a JSON object is an
      association list, read by its first binding of a key. *)

From Stdlib Require Import ZArith QArith Qreduction Bool List Ascii String Lia.
From Stdlib Require Import Lqa.
Import ListNotations.

Set Warnings "-register-all".

Local Open Scope list_scope.
Local Open Scope string_scope.

(** ** Python values, exceptions and the error monad *)

Inductive json : Type :=
| JNull
| JBool (b : bool)
| JNum (q : Q)
| JStr (s : string)
| JArr (items : list json)
| JObj (fields : list (string * json)).

(** The built-in exception classes the embedded code can raise.  A
    [KeyError] carries the key that was looked up. *)
Inductive exception : Type :=
| KeyError (key : json)
| IndexError
| TypeError
| ValueError
| AttributeError.

(** The name of an exception's class, as [type(e).__name__]. *)
Definition exc_class (e : exception) : string :=
  match e with
  | KeyError _ => "KeyError"
  | IndexError => "IndexError"
  | TypeError => "TypeError"
  | ValueError => "ValueError"
  | AttributeError => "AttributeError"
  end.

Inductive result (A : Type) : Type :=
| Ok (a : A)
| Raise (e : exception).

Arguments Ok {A} a.
Arguments Raise {A} e.

Definition bind {A B : Type} (r : result A) (k : A -> result B) : result B :=
  match r with
  | Ok a => k a
  | Raise e => Raise e
  end.

Notation "x <- r ;; k" := (bind r (fun x => k))
  (at level 61, r at next level, right associativity).

(** A list comprehension whose element expression may raise: elements are
    evaluated left to right and the first exception aborts. *)
Fixpoint comprehension {A B : Type} (f : A -> result B) (l : list A)
  : result (list B) :=
  match l with
  | [] => Ok []
  | x :: rest =>
      y <- f x ;;
      ys <- comprehension f rest ;;
      Ok (y :: ys)
  end.

(** ** Python string methods *)

Module Str.

(** [s.replace(a, b)] for one-character [a] and [b]. *)
Fixpoint replace (a b : ascii) (s : string) : string :=
  match s with
  | EmptyString => EmptyString
  | String c rest =>
      String (if Ascii.eqb c a then b else c) (replace a b rest)
  end.

(** [s.startswith(p)] *)
Definition startswith (s p : string) : bool := String.prefix p s.

(** [needle in hay]: [needle] occurs in [hay] as a contiguous run. *)
Fixpoint contains (hay needle : string) : bool :=
  startswith hay needle ||
  match hay with
  | EmptyString => false
  | String _ rest => contains rest needle
  end.

(** [s.endswith(p)] *)
Fixpoint endswith (s p : string) : bool :=
  String.eqb s p ||
  match s with
  | EmptyString => false
  | String _ rest => endswith rest p
  end.

(** [c in chars] for a character [c]. *)
Fixpoint mem (c : ascii) (chars : string) : bool :=
  match chars with
  | EmptyString => false
  | String d rest => Ascii.eqb c d || mem c rest
  end.

(** [s.lstrip(chars)]: drop leading characters that occur in [chars]. *)
Fixpoint lstrip (chars s : string) : string :=
  match s with
  | EmptyString => EmptyString
  | String c rest => if mem c chars then lstrip chars rest else s
  end.

(** [s.rstrip(chars)]: drop trailing characters that occur in [chars]. *)
Fixpoint rstrip (chars s : string) : string :=
  match s with
  | EmptyString => EmptyString
  | String c rest =>
      match rstrip chars rest with
      | EmptyString => if mem c chars then EmptyString else String c EmptyString
      | kept => String c kept
      end
  end.

(** [s.strip(chars)]: the argument is a set of characters, not a suffix. *)
Definition strip (chars s : string) : string := rstrip chars (lstrip chars s).

End Str.

(** ** Python list operations *)

Module PyList.

Definition len {A : Type} (l : list A) : Z := Z.of_nat (List.length l).

(** [range(n)] *)
Definition range (n : Z) : list Z := map Z.of_nat (seq 0 (Z.to_nat n)).

(** [l[i]], negative indices counting from the end. *)
Definition getitem {A : Type} (l : list A) (i : Z) : result A :=
  let j := if (i <? 0)%Z then (i + len l)%Z else i in
  if (j <? 0)%Z then Raise IndexError
  else match nth_error l (Z.to_nat j) with
       | Some x => Ok x
       | None => Raise IndexError
       end.

(** [l.insert(i, x)]: a negative [i] counts from the end and the position
    is clipped to [0 .. len(l)]; the element goes before position [i]. *)
Definition insert {A : Type} (l : list A) (i : Z) (x : A) : list A :=
  let j := if (i <? 0)%Z then Z.max 0 (i + len l) else Z.min i (len l) in
  firstn (Z.to_nat j) l ++ x :: skipn (Z.to_nat j) l.

End PyList.

(** ** Dictionaries with string keys *)

Fixpoint dict_get {V : Type} (d : list (string * V)) (k : string) : option V :=
  match d with
  | [] => None
  | (k', v) :: rest => if String.eqb k k' then Some v else dict_get rest k
  end.

(** [k in d] *)
Definition dict_mem {V : Type} (d : list (string * V)) (k : string) : bool :=
  match dict_get d k with Some _ => true | None => false end.

(** ** The static tables *)

(** A value of [_UNIT_DICTIONARY]: a dictionary with the three keys
    ["original"], ["SI"] and ["power"], or (for the empty label) a bare
    string. *)
Inductive unit_value : Type :=
| UnitDict (original SI : string) (power : Q)
| UnitStr (s : string).

Definition _UNIT_DICTIONARY : list (string * unit_value) :=
  [ ("m", UnitDict "meter" "meter" 1);
    ("hPa", UnitDict "hectopascal" "pascal" 100);
    ("DegCelsius", UnitDict "celsius" "celsius" 1);
    ("s", UnitDict "second" "second" 1);
    ("m/s", UnitDict "meter second-1" "meter second-1" 1);
    ("mm/h", UnitDict "millimeter hour-1" "meter second-1" (278 # 1000000000));
    ("relHumPerCent", UnitDict "percent" "percent" 1);
    ("?mol/(m^2*s)", UnitDict "micromole meter-2 second-1" "mole second-1" (1 # 1000000));
    ("umol/(m^2*s)", UnitDict "micromole meter-2 second-1" "mole second-1" (1 # 1000000));
    ("kilo Lux", UnitDict "kiloLux" "lux" 1000);
    ("degrees", UnitDict "degree" "degree" 1);
    ("?s", UnitDict "microsecond" "second" (1 # 1000000));
    ("us", UnitDict "microsecond" "second" (1 # 1000000));
    ("ppm", UnitDict "part per million" "mol mol-1" (1 # 1000000));
    ("", UnitStr "") ].


Definition _NAMES : list (string * string) :=
  [ ("sensor par", "Photosynthetically Active Radiation");
    ("sunDirection", "Solar zenith (or elevation) angle (under discussion right now)");
    ("temperature", "Atmosperic Temperature");
    ("relHumidity", "Relative Humidity");
    ("precipitation", "Precipation Rate");
    ("windDirection", "Wind Direction");
    ("windVelocity", "Wind Speed") ].

(** ** [renameTheValue] *)

(** [x.replace(" ", "_")] where [x] is a value of [_UNIT_DICTIONARY]: a
    dictionary has no [replace] method. *)
Definition unit_value_replace (x : unit_value) : result string :=
  match x with
  | UnitStr s => Ok (Str.replace " " "_" s)
  | UnitDict _ _ _ => Raise AttributeError
  end.

(** The condition [name in ("sensor co2" or "sensor par")] evaluates
    ["sensor co2" or "sensor par"] to ["sensor co2"] (a non-empty string is
    true), so it is a substring test against that one string. *)
Definition renameTheValue (name : string) : result string :=
  match dict_get _UNIT_DICTIONARY name with
  | Some entry => unit_value_replace entry
  | None =>
      match dict_get _NAMES name with
      | Some long_name => Ok (Str.replace " " "_" long_name)
      | None =>
          if Str.contains "sensor co2" name then
            Ok (Str.replace " " "_"
                  (if Str.endswith name "co2"
                   then "atmospherical CO2 concentration"
                   else "photosynthetically active radiation"))
          else Ok (Str.replace " " "_" name)
      end
  end.

(** ** Navigating the parsed JSON document *)

(** [v[key]] for a string [key]: only a dictionary can be subscripted by a
    string; a missing key raises [KeyError(key)]. *)
Definition getitem (v : json) (key : string) : result json :=
  match v with
  | JObj fields =>
      match dict_get fields key with
      | Some x => Ok x
      | None => Raise (KeyError (JStr key))
      end
  | _ => Raise TypeError
  end.

(** [_UNIT_DICTIONARY[label]] where [label] is a JSON value: lists and
    dictionaries are unhashable, every other value is a key that may be
    absent. *)
Definition unit_lookup (label : json) : result unit_value :=
  match label with
  | JStr s =>
      match dict_get _UNIT_DICTIONARY s with
      | Some entry => Ok entry
      | None => Raise (KeyError label)
      end
  | JArr _ | JObj _ => Raise TypeError
  | _ => Raise (KeyError label)
  end.

(** [converting_to["power"]] and [converting_to["SI"]]: a string subscripted
    by a string raises [TypeError]. *)
Definition unit_power (converting_to : unit_value) : result Q :=
  match converting_to with
  | UnitDict _ _ power => Ok power
  | UnitStr _ => Raise TypeError
  end.

Definition unit_SI (converting_to : unit_value) : result string :=
  match converting_to with
  | UnitDict _ SI _ => Ok SI
  | UnitStr _ => Raise TypeError
  end.

Section Extractors.

(** The value [float(s)] denotes for a string [s], [None] where it raises
    [ValueError].  The extractors are embedded for any such reading of
    numeric strings. *)
Variable float_of_string : string -> option Q.

(** The built-in [float(v)] on a JSON value. *)
Definition float (v : json) : result Q :=
  match v with
  | JNum q => Ok q
  | JBool b => Ok (if b then 1 else 0)
  | JStr s =>
      match float_of_string s with
      | Some q => Ok q
      | None => Raise ValueError
      end
  | JNull | JArr _ | JObj _ => Raise TypeError
  end.

(** [reading["weather_station"][dataName][member]] *)
Definition weather_station_member (reading : json) (dataName member : string)
  : result json :=
  ws <- getitem reading "weather_station" ;;
  field <- getitem ws dataName ;;
  getitem field member.

(** [reading[sensors][member]] *)
Definition sensor_member (reading : json) (sensors member : string)
  : result json :=
  field <- getitem reading sensors ;;
  getitem field member.

(** [np.array(xs) * power] *)
Definition scale (xs : list Q) (power : Q) : list Q :=
  map (fun x => x * power) xs.

Definition getListOfWeatherStationValue
    (arrayOfJSON : list json) (dataName : string)
  : result (list Q * list string * list Q) :=
  first <- PyList.getitem arrayOfJSON 0 ;;
  label <- weather_station_member first dataName "unit" ;;
  converting_to <- unit_lookup label ;;
  values <- comprehension
              (fun valueMembers =>
                 v <- weather_station_member valueMembers dataName "value" ;;
                 float v)
              arrayOfJSON ;;
  power <- unit_power converting_to ;;
  units <- comprehension (fun _ => unit_SI converting_to) arrayOfJSON ;;
  rawValues <- comprehension
                 (fun valueMembers =>
                    v <- weather_station_member valueMembers dataName "rawValue" ;;
                    float v)
                 arrayOfJSON ;;
  Ok (scale values power, units, rawValues).

Definition sensorVariables (JSONArray : list json) (sensors : string)
  : result (list Q * list string * list Q) :=
  first <- PyList.getitem JSONArray 0 ;;
  label <- sensor_member first sensors "unit" ;;
  converting_to <- unit_lookup label ;;
  values <- comprehension
              (fun valueMembers =>
                 v <- sensor_member valueMembers sensors "value" ;;
                 float v)
              JSONArray ;;
  power <- unit_power converting_to ;;
  units <- comprehension (fun _ => unit_SI converting_to) JSONArray ;;
  rawValues <- comprehension
                 (fun valueMembers =>
                    v <- sensor_member valueMembers sensors "rawValue" ;;
                    float v)
                 JSONArray ;;
  Ok (scale values power, units, rawValues).

(** [reading["spectrometer"][member]] *)
Definition spectrometer_member (reading : json) (member : string)
  : result json :=
  sp <- getitem reading "spectrometer" ;;
  getitem sp member.

Definition handleSpectrometer (JSONArray : list json)
  : result (json * list json * list Q) :=
  first <- PyList.getitem JSONArray 0 ;;
  wvl_lgr <- spectrometer_member first "wavelength" ;;
  spectrum <- comprehension
                (fun valueMembers => spectrometer_member valueMembers "spectrum")
                JSONArray ;;
  maxFixedIntensity <- comprehension
                         (fun valueMembers =>
                            v <- spectrometer_member valueMembers "maxFixedIntensity" ;;
                            float v)
                         JSONArray ;;
  Ok (wvl_lgr, spectrum, maxFixedIntensity).

End Extractors.

(** [len(v)] of a JSON value, where it has one. *)
Definition json_len (v : json) : option nat :=
  match v with
  | JArr items => Some (List.length items)
  | JObj fields => Some (List.length fields)
  | JStr s => Some (String.length s)
  | _ => None
  end.

(** A reading of numeric strings for closed examples: an optional minus sign
    and a non-empty run of decimal digits. *)
Fixpoint digits_value (s : string) (acc : Z) : option Z :=
  match s with
  | EmptyString => Some acc
  | String c rest =>
      let n := nat_of_ascii c in
      if (48 <=? n)%nat && (n <=? 57)%nat
      then digits_value rest (10 * acc + Z.of_nat (n - 48))%Z
      else None
  end.

Definition integer_literal (s : string) : option Q :=
  match s with
  | EmptyString => None
  | String "-" EmptyString => None
  | String "-" rest => option_map (fun z => inject_Z (- z)) (digits_value rest 0)
  | _ => option_map inject_Z (digits_value s 0)
  end.

(** ** The wavelength-delta block of [main]

    [wvl_ntf = [np.average([wvl_lgr[i], wvl_lgr[i+1]]) for i in range(len(wvl_lgr)-1)]]
    [delta   = [wvl_ntf[i+1] - wvl_ntf[i] for i in range(len(wvl_ntf) - 1)]]
    [delta.insert(0, 2*(wvl_ntf[0] - wvl_lgr[0]))]
    [delta.insert(-1, 2*(wvl_lgr[-1] - wvl_ntf[-1]))] *)

(** [np.average([a, b])] *)
Definition average2 (a b : Q) : Q := (a + b) / 2.

Definition main_wvl_ntf (wvl_lgr : list Q) : result (list Q) :=
  comprehension
    (fun i =>
       a <- PyList.getitem wvl_lgr i ;;
       b <- PyList.getitem wvl_lgr (i + 1) ;;
       Ok (average2 a b))
    (PyList.range (PyList.len wvl_lgr - 1)).

Definition main_delta (wvl_lgr : list Q) : result (list Q) :=
  wvl_ntf <- main_wvl_ntf wvl_lgr ;;
  delta <- comprehension
             (fun i =>
                a <- PyList.getitem wvl_ntf (i + 1) ;;
                b <- PyList.getitem wvl_ntf i ;;
                Ok (a - b))
             (PyList.range (PyList.len wvl_ntf - 1)) ;;
  ntf_first <- PyList.getitem wvl_ntf 0 ;;
  lgr_first <- PyList.getitem wvl_lgr 0 ;;
  let delta := PyList.insert delta 0 (2 * (ntf_first - lgr_first)) in
  lgr_last <- PyList.getitem wvl_lgr (-1) ;;
  ntf_last <- PyList.getitem wvl_ntf (-1) ;;
  Ok (PyList.insert delta (-1) (2 * (lgr_last - ntf_last))).

(** Midpoints of adjacent pairs and successive differences, by structural
    recursion; the two comprehensions above compute these. *)
Fixpoint adjacent {A B : Type} (h : A -> A -> B) (l : list A) : list B :=
  match l with
  | a :: (b :: _) as rest => h a b :: adjacent h rest
  | _ => []
  end.

Definition midpoints : list Q -> list Q := adjacent average2.

Definition differences : list Q -> list Q := adjacent (fun a b => b - a).

(** ** [translateTime] *)

Record struct_time : Type := mk_struct_time {
  tm_year : Z; tm_mon : Z; tm_mday : Z;
  tm_hour : Z; tm_min : Z; tm_sec : Z
}.

(** The text before the first occurrence of [sep], and the text after it. *)
Fixpoint split_at (sep : ascii) (s : string) : option (string * string) :=
  match s with
  | EmptyString => None
  | String c rest =>
      if Ascii.eqb c sep then Some (EmptyString, rest)
      else match split_at sep rest with
           | Some (before, after) => Some (String c before, after)
           | None => None
           end
  end.

(** A directive that reads one or two decimal digits with value in
    [lo .. hi]: the shape of the patterns of [%m], [%d], [%H], [%M] and
    [%S] (e.g. [%m] is [1[0-2]|0[1-9]|[1-9]]). *)
Definition one_or_two_digits (lo hi : Z) (field : string) : option Z :=
  match digits_value field 0 with
  | Some v =>
      if ((String.length field =? 1)%nat || (String.length field =? 2)%nat)
         && (lo <=? v)%Z && (v <=? hi)%Z
      then Some v else None
  | None => None
  end.

(** [%Y] is [\d\d\d\d]. *)
Definition directive_Y (field : string) : option Z :=
  if (String.length field =? 4)%nat then digits_value field 0 else None.

Definition directive_m : string -> option Z := one_or_two_digits 1 12.

(** [%d] is [3[0-1]|[1-2]\d|0[1-9]|[1-9]| [1-9]]: a single digit may be
    padded with a space. *)
Definition directive_d (field : string) : option Z :=
  match field with
  | EmptyString => None
  | String c rest =>
      if Ascii.eqb c " " then
        if (String.length rest =? 1)%nat then one_or_two_digits 1 9 rest else None
      else one_or_two_digits 1 31 field
  end.

Definition directive_H : string -> option Z := one_or_two_digits 0 23.
Definition directive_M : string -> option Z := one_or_two_digits 0 59.
Definition directive_S : string -> option Z := one_or_two_digits 0 61.

(** [datetime.date]: the proleptic Gregorian calendar. *)
Definition is_leap (year : Z) : bool :=
  ((year mod 4 =? 0) && (negb (year mod 100 =? 0) || (year mod 400 =? 0)))%Z.

Definition days_in_month (year month : Z) : Z :=
  (if month =? 2 then (if is_leap year then 29 else 28)
   else if (month =? 4) || (month =? 6) || (month =? 9) || (month =? 11)
        then 30 else 31)%Z.

Definition days_before_year (year : Z) : Z :=
  (let y := year - 1 in y * 365 + y / 4 - y / 100 + y / 400)%Z.

Definition days_before_month (year month : Z) : Z :=
  fold_right Z.add 0%Z
    (map (days_in_month year) (map Z.of_nat (seq 1 (Z.to_nat (month - 1))))).

(** [date(year, month, day).toordinal()] *)
Definition toordinal (year month day : Z) : Z :=
  (days_before_year year + days_before_month year month + day)%Z.

(** The range checks of the [datetime] constructor. *)
Definition valid_datetime (t : struct_time) : bool :=
  ((1 <=? tm_year t) && (tm_year t <=? 9999)
   && (1 <=? tm_mon t) && (tm_mon t <=? 12)
   && (1 <=? tm_mday t) && (tm_mday t <=? days_in_month (tm_year t) (tm_mon t))
   && (0 <=? tm_hour t) && (tm_hour t <=? 23)
   && (0 <=? tm_min t) && (tm_min t <=? 59)
   && (0 <=? tm_sec t) && (tm_sec t <=? 59))%Z.

(** [datetime.strptime(timeString, "%Y.%m.%d-%H:%M:%S").timetuple()]: the
    whole string has to match the six directives with their separators, and
    the fields have to make a valid [datetime]; every failure is a
    [ValueError]. *)
Definition strptime (timeString : string) : result struct_time :=
  match split_at "." timeString with
  | Some (fY, s1) =>
  match split_at "." s1 with
  | Some (fm, s2) =>
  match split_at "-" s2 with
  | Some (fd, s3) =>
  match split_at ":" s3 with
  | Some (fH, s4) =>
  match split_at ":" s4 with
  | Some (fM, fS) =>
      match directive_Y fY, directive_m fm, directive_d fd,
            directive_H fH, directive_M fM, directive_S fS with
      | Some year, Some month, Some day, Some hour, Some minute, Some second =>
          let t := mk_struct_time year month day hour minute second in
          if valid_datetime t then Ok t else Raise ValueError
      | _, _, _, _, _, _ => Raise ValueError
      end
  | None => Raise ValueError end
  | None => Raise ValueError end
  | None => Raise ValueError end
  | None => Raise ValueError end
  | None => Raise ValueError end.

(** [_UNIX_BASETIME = date(year=1970, month=1, day=1)] *)
Definition _UNIX_BASETIME : Z := toordinal 1970 1 1.

(** [timeSplit] is a [timedelta] of whole days; [total_seconds()] is
    [days * 86400]. *)
Definition translateTime (timeString : string) : result Q :=
  timeUnpack <- strptime timeString ;;
  let timeSplit :=
    (toordinal (tm_year timeUnpack) (tm_mon timeUnpack) (tm_mday timeUnpack)
     - _UNIX_BASETIME)%Z in
  Ok ((inject_Z (timeSplit * 86400)
       + inject_Z (tm_hour timeUnpack) * 3600
       + inject_Z (tm_min timeUnpack) * 60
       + inject_Z (tm_sec timeUnpack)) / (3600 * 24)).

(** A timestamp in the layout [YYYY.MM.DD-HH:MM:SS], every field padded
    with zeros to its width. *)
Definition digit (k : Z) : ascii := ascii_of_nat (48 + Z.to_nat k).

Definition pad2 (n : Z) : string :=
  String (digit (n / 10)) (String (digit (n mod 10)) EmptyString).

Definition pad4 (n : Z) : string :=
  String (digit (n / 1000)) (String (digit (n / 100 mod 10)) (pad2 (n mod 100))).

Definition timestamp (year month day hour minute second : Z) : string :=
  pad4 year ++ "." ++ pad2 month ++ "." ++ pad2 day ++ "-"
  ++ pad2 hour ++ ":" ++ pad2 minute ++ ":" ++ pad2 second.

(** ** The output name of [mainProgramTrigger] (directory input) *)

(** [os.path.join(a, b)] on POSIX paths. *)
Definition path_join (a b : string) : string :=
  if Str.startswith b "/" then b
  else if String.eqb a "" || Str.endswith a "/" then a ++ b
       else a ++ "/" ++ b.

(** ["".join((members.strip('.json'), '.nc'))] *)
Definition outputFileName (members : string) : string :=
  Str.strip ".json" members ++ ".nc".

(** The loop over [os.walk(fileInputLocation)], given what the walk yields
    (each directory path with its file names): the files that are converted,
    each with the path of its output. *)
Definition walk_outputs (fileOutputLocation : string)
    (walk : list (string * list string)) : list (string * string) :=
  flat_map
    (fun '(filePath, fileName) =>
       flat_map
         (fun members =>
            if Str.endswith (path_join filePath members) ".json"
            then [(path_join filePath members,
                   path_join fileOutputLocation (outputFileName members))]
            else [])
         fileName)
    walk.

(** ** The downwelling flux calculator *)

Module Flux.

Inductive error : Type := CalibrationShapeError.

Fixpoint zip_with {A B C : Type} (f : A -> B -> C) (l : list A) (m : list B)
  : list C :=
  match l, m with
  | a :: l', b :: m' => f a b :: zip_with f l' m'
  | _, _ => []
  end.

(** The sum over the channels of the products of two rows. *)
Definition dot (row deltas : list Q) : Q :=
  fold_right Qplus 0 (zip_with Qmult row deltas).

(** Modelled from the spec: [calculateDownwellingSpectralFlux], which
    [main] calls and imports from [environmental_logger_calculation]; that
    module is not among the sources.  Section 4.5 of the specification
    gives its contract: each count is multiplied by the calibration
    coefficient of its channel and divided by integration time times
    sensor area; the scalar flux of a reading is the sum over the channels
    of spectral flux times delta; a calibration curve whose length differs
    from the wavelength grid's raises [CalibrationShapeError]. *)
Definition calculateDownwellingSpectralFlux
    (wavelengths : list Q) (spectra : list (list Q))
    (deltas calibrationCurve : list Q)
    (integrationTimeSeconds sensorAreaM2 : Q)
  : error + (list (list Q) * list Q) :=
  if (List.length calibrationCurve =? List.length wavelengths)%nat then
    let spectralFlux :=
      map (fun counts =>
             zip_with
               (fun count coefficient =>
                  count * coefficient / (integrationTimeSeconds * sensorAreaM2))
               counts calibrationCurve)
          spectra in
    inr (spectralFlux, map (fun row => dot row deltas) spectralFlux)
  else inl CalibrationShapeError.

(** [sum_below n f] is the sum of [f j] over [j < n]. *)
Fixpoint sum_below (n : nat) (f : nat -> Q) : Q :=
  match n with
  | O => 0
  | S n' => sum_below n' f + f n'
  end.

End Flux.

(** ** [getSpectrometerInformation] *)

Section SpectrometerInformation.

(** The value [int(s)] denotes for a string [s], [None] where it raises
    [ValueError]. *)
Variable int_of_string : string -> option Z.

(** The built-in [int(v)] on a JSON value; a number is truncated towards
    zero. *)
Definition int (v : json) : result Z :=
  match v with
  | JNum q => Ok (Z.quot (Qnum q) (Z.pos (Qden q)))
  | JBool b => Ok (if b then 1 else 0)%Z
  | JStr s =>
      match int_of_string s with
      | Some z => Ok z
      | None => Raise ValueError
      end
  | JNull | JArr _ | JObj _ => Raise TypeError
  end.

Definition getSpectrometerInformation (arrayOfJSON : list json)
  : result (list Z * list Z) :=
  maxFixedIntensity <- comprehension
                         (fun intensityMembers =>
                            v <- spectrometer_member intensityMembers
                                   "maxFixedIntensity" ;;
                            int v)
                         arrayOfJSON ;;
  integrationTime <- comprehension
                       (fun integrateMembers =>
                          v <- spectrometer_member integrateMembers
                                 "integration time in ?s" ;;
                          int v)
                       arrayOfJSON ;;
  Ok (maxFixedIntensity, integrationTime).

End SpectrometerInformation.

(** ** The sensor and time variables of [main] *)


(** [strptime] on a JSON value: only a string can be parsed. *)
Definition translateTime_json (v : json) : result Q :=
  match v with
  | JStr timeString => translateTime timeString
  | _ => Raise TypeError
  end.

(** [[translateTime(data["timestamp"]) for data in loggerReadings]] *)
Definition main_time (loggerReadings : list json) : result (list Q) :=
  comprehension
    (fun data => ts <- getitem data "timestamp" ;; translateTime_json ts)
    loggerReadings.

(** ** Orders and shapes used in the statements below *)

Fixpoint strictly_increasing (l : list Q) : Prop :=
  match l with
  | a :: (b :: _) as rest => a < b /\ strictly_increasing rest
  | _ => True
  end.


(** The date and time [t] is before [u], field by field. *)
Definition earlier (t u : struct_time) : Prop :=
  (tm_year t < tm_year u
   \/ tm_year t = tm_year u
      /\ (tm_mon t < tm_mon u
          \/ tm_mon t = tm_mon u
             /\ (tm_mday t < tm_mday u
                 \/ tm_mday t = tm_mday u
                    /\ (tm_hour t < tm_hour u
                        \/ tm_hour t = tm_hour u
                           /\ (tm_min t < tm_min u
                               \/ tm_min t = tm_min u
                                  /\ tm_sec t < tm_sec u)))))%Z.

(** The number of seconds from the epoch that [translateTime] divides. *)
Definition seconds_since_epoch (t : struct_time) : Z :=
  ((toordinal (tm_year t) (tm_mon t) (tm_mday t) - _UNIX_BASETIME) * 86400
   + tm_hour t * 3600 + tm_min t * 60 + tm_sec t)%Z.

Definition timestamp_of (t : struct_time) : string :=
  timestamp (tm_year t) (tm_mon t) (tm_mday t)
            (tm_hour t) (tm_min t) (tm_sec t).

(** Each date and time of the list is before the next. *)
Fixpoint chronological (ts : list struct_time) : Prop :=
  match ts with
  | t :: (u :: _) as rest => earlier t u /\ chronological rest
  | _ => True
  end.

(** All the characters of [t] are in [chars]. *)
Fixpoint all_in (chars t : string) : bool :=
  match t with
  | EmptyString => true
  | String c rest => Str.mem c chars && all_in chars rest
  end.

(** The characters that [strip('.json')] removes. *)
Definition strip_set : string := ".json".

(** [s] neither begins nor ends with a character of [chars]. *)
Definition clean_ends (chars s : string) : Prop :=
  (forall c rest, s = String c rest -> Str.mem c chars = false)
  /\ (forall c front, s = front ++ String c "" -> Str.mem c chars = false).

(** ** Names and sample data used in the statements below *)

Definition renamed_co2 : string := "atmospherical_CO2_concentration".
Definition renamed_par : string := "photosynthetically_active_radiation".

(** A reading whose weather station has the one field ["temperature"], with
    a ["sensor par"] entry of the same content and a spectrometer record. *)
Definition sample_reading (value rawValue : json) (unit : string)
    (wavelength spectrum : list Q) : json :=
  let entry :=
    JObj [("value", value); ("unit", JStr unit); ("rawValue", rawValue)] in
  JObj [("timestamp", JStr "2016.04.07-12:00:07");
        ("weather_station", JObj [("temperature", entry)]);
        ("sensor par", entry);
        ("spectrometer",
          JObj [("maxFixedIntensity", JStr "16383");
                ("integration time in us", JStr "5000");
                ("wavelength", JArr (map JNum wavelength));
                ("spectrum", JArr (map JNum spectrum))])].

(** * Properties *)

(** ** Strings *)

Lemma replace_length (a b : ascii) (s : string) :
  String.length (Str.replace a b s) = String.length s.
Proof.
  induction s as [|c s IH]; simpl; [reflexivity | now rewrite IH].
Qed.

Lemma startswith_spec (s p : string) :
  Str.startswith s p = true <-> exists post, s = p ++ post.
Proof.
  unfold Str.startswith. revert s.
  induction p as [|c p IH]; intros s.
  - split; [intros _; exists s; reflexivity | intros _; now destruct s].
  - destruct s as [|d s]; simpl.
    + split; [discriminate | intros [post E]; discriminate].
    + destruct (ascii_dec c d) as [<-|ne].
      * rewrite IH. split; intros [post E]; exists post; congruence.
      * split; [discriminate | intros [post E]; congruence].
Qed.

Lemma contains_spec (hay needle : string) :
  Str.contains hay needle = true
  <-> exists pre post, hay = pre ++ needle ++ post.
Proof.
  induction hay as [|c hay IH]; cbn [Str.contains];
    rewrite orb_true_iff, startswith_spec.
  - split.
    + intros [[post E] | F]; [exists "", post; exact E | discriminate].
    + intros [pre [post E]]. left. destruct pre; [now exists post | discriminate].
  - rewrite IH. split.
    + intros [[post E] | [pre [post E]]].
      * exists "", post. exact E.
      * exists (String c pre), post. simpl. now rewrite E.
    + intros [pre [post E]]. destruct pre as [|d pre].
      * left. now exists post.
      * right. exists pre, post. simpl in E. congruence.
Qed.

Lemma endswith_spec (s p : string) :
  Str.endswith s p = true <-> exists pre, s = pre ++ p.
Proof.
  induction s as [|c s IH]; cbn [Str.endswith];
    rewrite orb_true_iff, String.eqb_eq.
  - split.
    + intros [E | F]; [exists ""; exact E | discriminate].
    + intros [pre E]. left. destruct pre; [exact E | discriminate].
  - rewrite IH. split.
    + intros [E | [pre E]]; [exists ""; exact E | exists (String c pre)].
      simpl. now rewrite E.
    + intros [pre E]. destruct pre as [|d pre].
      * left. exact E.
      * right. exists pre. simpl in E. congruence.
Qed.

Lemma append_length (s t : string) :
  String.length (s ++ t) = (String.length s + String.length t)%nat.
Proof.
  induction s as [|c s IH]; simpl; [reflexivity | now rewrite IH].
Qed.

(** ** [renameTheValue] *)

(** C10.  For a key that is in neither [_UNIT_DICTIONARY] nor [_NAMES],
    [renameTheValue] returns the key with its spaces replaced by
    underscores if and only if the key is not a contiguous substring of
    ["sensor co2"]; for a key that is such a substring it returns
    ["atmospherical_CO2_concentration"] when the key ends with ["co2"] and
    ["photosynthetically_active_radiation"] otherwise. *)
Theorem renameTheValue_unlisted_key (name : string) :
  dict_get _UNIT_DICTIONARY name = None ->
  dict_get _NAMES name = None ->
  (renameTheValue name = Ok (Str.replace " " "_" name)
   <-> ~ (exists pre post, "sensor co2" = pre ++ name ++ post))
  /\ ((exists pre post, "sensor co2" = pre ++ name ++ post) ->
      ((exists pre, name = pre ++ "co2") ->
       renameTheValue name = Ok renamed_co2)
      /\ (~ (exists pre, name = pre ++ "co2") ->
          renameTheValue name = Ok renamed_par)).
Proof.
  intros Hunit Hnames. unfold renameTheValue. rewrite Hunit, Hnames.
  rewrite <- contains_spec, <- endswith_spec.
  destruct (Str.contains "sensor co2" name) eqn:Hsub.
  - split.
    + split; [| intros F; now elim F].
      intros E. exfalso.
      apply contains_spec in Hsub. destruct Hsub as [pre [post Hsub]].
      apply (f_equal String.length) in Hsub.
      rewrite !append_length in Hsub. simpl in Hsub.
      injection E as E. apply (f_equal String.length) in E.
      rewrite !replace_length in E.
      destruct (Str.endswith name "co2"); simpl in E; lia.
    + intros _. split; intros Hend.
      * now rewrite Hend.
      * destruct (Str.endswith name "co2"); [now elim Hend | reflexivity].
  - split; [| discriminate].
    split; [discriminate | reflexivity].
Qed.

(** The key ["sensor c"] is renamed to the radiation name. *)
Lemma renameTheValue_sensor_c :
  renameTheValue "sensor c" = Ok renamed_par.
Proof.
  destruct (renameTheValue_unlisted_key "sensor c" eq_refl eq_refl) as [_ H].
  apply H.
  - exists "", "o2". reflexivity.
  - rewrite <- endswith_spec. vm_compute. discriminate.
Defined.

(** ** Output names of [mainProgramTrigger] *)

(** C9.  Walking a directory that holds [session.json], the converter
    writes its output to [essi.nc]: [strip('.json')] removes the characters
    [.], [j], [s], [o], [n] from both ends of the name, not the extension. *)
Theorem walk_outputs_session :
  walk_outputs "out" [("in", ["session.json"])]
  = [("in/session.json", "out/essi.nc")].
Proof. reflexivity. Qed.

(** ** The field extractors *)

Lemma comprehension_Forall2 {A B : Type} (f : A -> result B)
    (l : list A) (ys : list B) :
  Forall2 (fun x y => f x = Ok y) l ys -> comprehension f l = Ok ys.
Proof.
  induction 1 as [|x y l ys Hxy _ IH]; simpl; [reflexivity |].
  now rewrite Hxy, IH.
Qed.

Lemma comprehension_const {A B : Type} (r : B) (l : list A) :
  comprehension (fun _ => Ok r) l = Ok (map (fun _ => r) l).
Proof.
  induction l as [|x l IH]; simpl; [reflexivity | now rewrite IH].
Qed.

Section ExtractorProperties.

Variable float_of_string : string -> option Q.

(** What the extractors return when every reading has the field. *)
Lemma getListOfWeatherStationValue_returns
    first rest dataName label original SI power values rawValues :
  weather_station_member first dataName "unit" = Ok (JStr label) ->
  dict_get _UNIT_DICTIONARY label = Some (UnitDict original SI power) ->
  Forall2 (fun reading v =>
             (x <- weather_station_member reading dataName "value" ;;
              float float_of_string x) = Ok v) (first :: rest) values ->
  Forall2 (fun reading r =>
             (x <- weather_station_member reading dataName "rawValue" ;;
              float float_of_string x) = Ok r) (first :: rest) rawValues ->
  getListOfWeatherStationValue float_of_string (first :: rest) dataName
  = Ok (map (fun v => v * power) values,
        map (fun _ => SI) (first :: rest),
        rawValues).
Proof.
  intros Hlabel Hunit Hvalues Hraw.
  unfold getListOfWeatherStationValue.
  change (PyList.getitem (first :: rest) 0) with (Ok first).
  cbn [bind]. rewrite Hlabel. cbn [bind unit_lookup]. rewrite Hunit.
  cbn [bind]. rewrite (comprehension_Forall2 _ _ _ Hvalues).
  cbn [bind unit_power unit_SI]. rewrite comprehension_const.
  cbn [bind]. rewrite (comprehension_Forall2 _ _ _ Hraw).
  reflexivity.
Qed.

Lemma sensorVariables_returns
    first rest sensors label original SI power values rawValues :
  sensor_member first sensors "unit" = Ok (JStr label) ->
  dict_get _UNIT_DICTIONARY label = Some (UnitDict original SI power) ->
  Forall2 (fun reading v =>
             (x <- sensor_member reading sensors "value" ;;
              float float_of_string x) = Ok v)
          (first :: rest) values ->
  Forall2 (fun reading r =>
             (x <- sensor_member reading sensors "rawValue" ;;
              float float_of_string x) = Ok r)
          (first :: rest) rawValues ->
  sensorVariables float_of_string (first :: rest) sensors
  = Ok (map (fun v => v * power) values,
        map (fun _ => SI) (first :: rest),
        rawValues).
Proof.
  intros Hlabel Hunit Hvalues Hraw.
  unfold sensorVariables.
  change (PyList.getitem (first :: rest) 0) with (Ok first).
  cbn [bind]. rewrite Hlabel. cbn [bind unit_lookup]. rewrite Hunit.
  cbn [bind]. rewrite (comprehension_Forall2 _ _ _ Hvalues).
  cbn [bind unit_power unit_SI]. rewrite comprehension_const.
  cbn [bind]. rewrite (comprehension_Forall2 _ _ _ Hraw).
  reflexivity.
Qed.

(** A label that is a key of the table bound to a bare string makes the
    extraction raise: it never returns values. *)
Lemma getListOfWeatherStationValue_bare_string
    first rest dataName label s :
  weather_station_member first dataName "unit" = Ok (JStr label) ->
  dict_get _UNIT_DICTIONARY label = Some (UnitStr s) ->
  exists e,
    getListOfWeatherStationValue float_of_string (first :: rest) dataName
    = Raise e.
Proof.
  intros Hlabel Hunit. unfold getListOfWeatherStationValue.
  change (PyList.getitem (first :: rest) 0) with (Ok first).
  cbn [bind]. rewrite Hlabel. cbn [bind unit_lookup]. rewrite Hunit.
  cbn [bind].
  destruct (comprehension _ (first :: rest)) as [vs|e]; cbn [bind unit_power];
    eexists; reflexivity.
Qed.

Lemma unknown_label_weather_station first rest dataName label :
  weather_station_member first dataName "unit" = Ok (JStr label) ->
  dict_get _UNIT_DICTIONARY label = None ->
  getListOfWeatherStationValue float_of_string (first :: rest) dataName
  = Raise (KeyError (JStr label)).
Proof.
  intros Hlabel Hunit. unfold getListOfWeatherStationValue.
  change (PyList.getitem (first :: rest) 0) with (Ok first).
  cbn [bind]. rewrite Hlabel. cbn [bind unit_lookup]. now rewrite Hunit.
Qed.

Lemma unknown_label_sensor first rest sensors label :
  sensor_member first sensors "unit" = Ok (JStr label) ->
  dict_get _UNIT_DICTIONARY label = None ->
  sensorVariables float_of_string (first :: rest) sensors
  = Raise (KeyError (JStr label)).
Proof.
  intros Hlabel Hunit. unfold sensorVariables.
  change (PyList.getitem (first :: rest) 0) with (Ok first).
  cbn [bind]. rewrite Hlabel. cbn [bind unit_lookup]. now rewrite Hunit.
Qed.

(** C3 (amended).  The converted values come from the readings' ["value"]
    members and the raw values from their ["rawValue"] members: with the
    unit of the first reading bound in [_UNIT_DICTIONARY] to a scale
    [power] and an SI name, both extractors return the ["value"] members
    each multiplied by [power], the SI name once per reading, and the
    ["rawValue"] members unchanged. *)
Theorem field_extractor_scales_value_members :
  (forall first rest dataName label original SI power values rawValues,
      weather_station_member first dataName "unit" = Ok (JStr label) ->
      dict_get _UNIT_DICTIONARY label = Some (UnitDict original SI power) ->
      Forall2 (fun reading v =>
                 (x <- weather_station_member reading dataName "value" ;;
                  float float_of_string x) = Ok v) (first :: rest) values ->
      Forall2 (fun reading r =>
                 (x <- weather_station_member reading dataName "rawValue" ;;
                  float float_of_string x) = Ok r) (first :: rest) rawValues ->
      getListOfWeatherStationValue float_of_string (first :: rest) dataName
      = Ok (map (fun v => v * power) values,
            map (fun _ => SI) (first :: rest),
            rawValues))
  /\ (forall first rest sensors label original SI power values rawValues,
        sensor_member first sensors "unit" = Ok (JStr label) ->
        dict_get _UNIT_DICTIONARY label = Some (UnitDict original SI power) ->
        Forall2 (fun reading v =>
                   (x <- sensor_member reading sensors "value" ;;
                    float float_of_string x) = Ok v) (first :: rest) values ->
        Forall2 (fun reading r =>
                   (x <- sensor_member reading sensors "rawValue" ;;
                    float float_of_string x) = Ok r) (first :: rest) rawValues ->
        sensorVariables float_of_string (first :: rest) sensors
        = Ok (map (fun v => v * power) values,
              map (fun _ => SI) (first :: rest),
              rawValues)).
Proof.
  split; intros.
  - eapply getListOfWeatherStationValue_returns; eassumption.
  - eapply sensorVariables_returns; eassumption.
Qed.

(** C7 (amended).  When the unit label of the first reading is not a key
    of [_UNIT_DICTIONARY], both extractors raise the built-in [KeyError]
    carrying that label (and nothing else), and return no values. *)
Theorem unknown_unit_raises_KeyError :
  (forall first rest dataName label,
      weather_station_member first dataName "unit" = Ok (JStr label) ->
      dict_get _UNIT_DICTIONARY label = None ->
      getListOfWeatherStationValue float_of_string (first :: rest) dataName
      = Raise (KeyError (JStr label)))
  /\ (forall first rest sensors label,
        sensor_member first sensors "unit" = Ok (JStr label) ->
        dict_get _UNIT_DICTIONARY label = None ->
        sensorVariables float_of_string (first :: rest) sensors
        = Raise (KeyError (JStr label))).
Proof.
  split; intros.
  - now apply unknown_label_weather_station.
  - now apply unknown_label_sensor.
Qed.

(** C6.  The empty label is a key of [_UNIT_DICTIONARY], bound to the
    empty string and not to a dictionary with a scale: extracting a field
    whose unit is the empty string raises [TypeError]. *)
Theorem empty_unit_raises_TypeError :
  dict_get _UNIT_DICTIONARY "" = Some (UnitStr "")
  /\ getListOfWeatherStationValue float_of_string
       [sample_reading (JNum 5) (JNum 5) "" [] []] "temperature"
     = Raise TypeError
  /\ sensorVariables float_of_string
       [sample_reading (JNum 5) (JNum 5) "" [] []] "sensor par"
     = Raise TypeError.
Proof. repeat split. Qed.

(** C5 (amended).  [handleSpectrometer] compares no lengths: when every
    reading has the spectrometer members, it returns the wavelength grid
    of the first reading, the spectrum of every reading as recorded, and
    the saturation thresholds. *)
Theorem handleSpectrometer_returns
    first rest wvl_lgr spectrum maxFixedIntensity :
  spectrometer_member first "wavelength" = Ok wvl_lgr ->
  Forall2 (fun reading s => spectrometer_member reading "spectrum" = Ok s)
          (first :: rest) spectrum ->
  Forall2 (fun reading m =>
             (v <- spectrometer_member reading "maxFixedIntensity" ;;
              float float_of_string v) = Ok m)
          (first :: rest) maxFixedIntensity ->
  handleSpectrometer float_of_string (first :: rest)
  = Ok (wvl_lgr, spectrum, maxFixedIntensity).
Proof.
  intros Hgrid Hspectrum Hmax. unfold handleSpectrometer.
  change (PyList.getitem (first :: rest) 0) with (Ok first).
  cbn [bind]. rewrite Hgrid. cbn [bind].
  rewrite (comprehension_Forall2 _ _ _ Hspectrum). cbn [bind].
  now rewrite (comprehension_Forall2 _ _ _ Hmax).
Qed.

End ExtractorProperties.

(** With raw values [1, 2, 3], ["value"] members [1, 2, 3] and the unit
    [hPa] (scale 100), the values are [100, 200, 300] and the raw values are
    returned as they are. *)
Lemma field_extractor_hPa :
  getListOfWeatherStationValue integer_literal
    [sample_reading (JStr "1") (JStr "1") "hPa" [] [];
     sample_reading (JStr "2") (JStr "2") "hPa" [] [];
     sample_reading (JStr "3") (JStr "3") "hPa" [] []] "temperature"
  = Ok ([1 * 100; 2 * 100; 3 * 100], ["pascal"; "pascal"; "pascal"], [1; 2; 3]).
Proof.
  apply (proj1 (field_extractor_scales_value_members integer_literal))
    with (label := "hPa") (original := "hectopascal") (values := [1; 2; 3]);
    try reflexivity; repeat constructor.
Defined.

(** C3, as stated, fails: a reading whose ["value"] is 5 and whose
    ["rawValue"] is 7, in metres (scale 1), yields the value 5, which is not
    the raw value times the scale. *)
Lemma field_extractor_value_differs_from_rawValue :
  getListOfWeatherStationValue integer_literal
    [sample_reading (JNum 5) (JNum 7) "m" [] []] "temperature"
  = Ok ([5 * 1], ["meter"], [7])
  /\ unit_lookup (JStr "m") = Ok (UnitDict "meter" "meter" 1)
  /\ ~ 5 * 1 == 7 * 1.
Proof. repeat split. intros H. vm_compute in H. discriminate. Qed.

Lemma unknown_unit_furlong :
  getListOfWeatherStationValue integer_literal
    [sample_reading (JNum 5) (JNum 7) "furlong" [] []] "temperature"
  = Raise (KeyError (JStr "furlong")).
Proof.
  apply (proj1 (unknown_unit_raises_KeyError integer_literal)); reflexivity.
Defined.

(** C7, as stated, fails: for the unknown label ["furlong"] the exception
    raised is a [KeyError], not an [UnknownUnitError], and it carries the
    label only. *)
Lemma unknown_unit_is_not_UnknownUnitError :
  getListOfWeatherStationValue integer_literal
    [sample_reading (JNum 5) (JNum 7) "furlong" [] []] "temperature"
  = Raise (KeyError (JStr "furlong"))
  /\ exc_class (KeyError (JStr "furlong")) <> "UnknownUnitError".
Proof. split; [reflexivity | discriminate]. Qed.

Lemma handleSpectrometer_mismatched :
  handleSpectrometer integer_literal
    [sample_reading (JNum 5) (JNum 7) "m" [1; 2; 3] [10; 20]]
  = Ok (JArr [JNum 1; JNum 2; JNum 3], [JArr [JNum 10; JNum 20]], [16383]).
Proof.
  apply handleSpectrometer_returns; try reflexivity; repeat constructor.
Defined.

(** C5, as stated, fails: a reading with three wavelengths and two spectral
    counts is returned as it is, and nothing is raised. *)
Lemma handleSpectrometer_raises_nothing :
  json_len (JArr [JNum 10; JNum 20]) <> json_len (JArr [JNum 1; JNum 2; JNum 3])
  /\ handleSpectrometer integer_literal
       [sample_reading (JNum 5) (JNum 7) "m" [1; 2; 3] [10; 20]]
     = Ok (JArr [JNum 1; JNum 2; JNum 3], [JArr [JNum 10; JNum 20]], [16383]).
Proof. split; [discriminate | reflexivity]. Qed.

(** ** The wavelength deltas *)

Lemma getitem_nat {A : Type} (l : list A) (i : nat) :
  PyList.getitem l (Z.of_nat i)
  = match nth_error l i with Some x => Ok x | None => Raise IndexError end.
Proof.
  unfold PyList.getitem.
  destruct (Z.ltb_spec (Z.of_nat i) 0) as [F|_]; [lia |].
  destruct (Z.ltb_spec (Z.of_nat i) 0) as [F|_]; [lia |].
  now rewrite Nat2Z.id.
Qed.

Lemma getitem_in_range {A : Type} (l : list A) (i : nat) (d : A) :
  (i < List.length l)%nat -> PyList.getitem l (Z.of_nat i) = Ok (nth i l d).
Proof.
  intros Hi. rewrite getitem_nat.
  now rewrite (nth_error_nth' l d Hi).
Qed.

Lemma nth_pred_length {A : Type} (l : list A) (d : A) :
  nth (List.length l - 1) l d = last l d.
Proof.
  induction l as [|x [|y l] IH]; try reflexivity.
  change (last (x :: y :: l) d) with (last (y :: l) d). rewrite <- IH.
  simpl. now rewrite Nat.sub_0_r.
Qed.

Lemma getitem_last {A : Type} (l : list A) (d : A) :
  l <> [] -> PyList.getitem l (-1) = Ok (last l d).
Proof.
  intros Hne. unfold PyList.getitem, PyList.len. cbn [Z.ltb Z.compare].
  assert (Hlen : (0 < List.length l)%nat) by (destruct l; [easy | simpl; lia]).
  destruct (Z.ltb_spec (-1 + Z.of_nat (List.length l)) 0) as [F|_]; [lia |].
  replace (Z.to_nat (-1 + Z.of_nat (List.length l)))
    with (List.length l - 1)%nat by lia.
  rewrite (nth_error_nth' l d) by lia.
  now rewrite nth_pred_length.
Qed.

Lemma comprehension_seq {B : Type} (f : Z -> result B) (g : nat -> B)
    (start n : nat) :
  (forall i, (start <= i < start + n)%nat -> f (Z.of_nat i) = Ok (g i)) ->
  comprehension f (map Z.of_nat (seq start n)) = Ok (map g (seq start n)).
Proof.
  revert start. induction n as [|n IH]; intros start Hf; simpl; [reflexivity |].
  rewrite Hf by lia. cbn [bind]. rewrite IH; [reflexivity |].
  intros i Hi. apply Hf. lia.
Qed.

Lemma adjacent_nth {A B : Type} (h : A -> A -> B) (d : A) (l : list A) :
  adjacent h l
  = map (fun i => h (nth i l d) (nth (S i) l d)) (seq 0 (List.length l - 1)).
Proof.
  induction l as [|a [|b l] IH]; try reflexivity.
  change (adjacent h (a :: b :: l)) with (h a b :: adjacent h (b :: l)).
  rewrite IH.
  replace (List.length (a :: b :: l) - 1)%nat
    with (S (List.length (b :: l) - 1)) by (simpl; lia).
  cbn [seq map nth]. f_equal.
  rewrite <- seq_shift, map_map. reflexivity.
Qed.

Lemma adjacent_length {A B : Type} (h : A -> A -> B) (l : list A) :
  List.length (adjacent h l) = (List.length l - 1)%nat.
Proof.
  induction l as [|a [|b l] IH]; try reflexivity.
  change (adjacent h (a :: b :: l)) with (h a b :: adjacent h (b :: l)).
  simpl in *. lia.
Qed.

Lemma range_len_pred {A : Type} (l : list A) :
  PyList.range (PyList.len l - 1) = map Z.of_nat (seq 0 (List.length l - 1)).
Proof.
  unfold PyList.range, PyList.len. f_equal. f_equal. lia.
Qed.

(** The first comprehension computes the midpoints. *)
Lemma main_wvl_ntf_midpoints (wvl_lgr : list Q) :
  main_wvl_ntf wvl_lgr = Ok (midpoints wvl_lgr).
Proof.
  unfold main_wvl_ntf, midpoints.
  rewrite range_len_pred, (adjacent_nth average2 0 wvl_lgr).
  apply comprehension_seq. intros i Hi.
  rewrite (getitem_in_range wvl_lgr i 0) by lia. cbn [bind].
  replace (Z.of_nat i + 1)%Z with (Z.of_nat (S i)) by lia.
  now rewrite (getitem_in_range wvl_lgr (S i) 0) by lia.
Qed.

(** The second comprehension computes the differences. *)
Lemma delta_differences (wvl_ntf : list Q) :
  comprehension
    (fun i =>
       a <- PyList.getitem wvl_ntf (i + 1) ;;
       b <- PyList.getitem wvl_ntf i ;;
       Ok (a - b))
    (PyList.range (PyList.len wvl_ntf - 1))
  = Ok (differences wvl_ntf).
Proof.
  unfold differences.
  rewrite range_len_pred, (adjacent_nth (fun a b => b - a) 0 wvl_ntf).
  apply comprehension_seq. intros i Hi.
  replace (Z.of_nat i + 1)%Z with (Z.of_nat (S i)) by lia.
  rewrite (getitem_in_range wvl_ntf (S i) 0) by lia. cbn [bind].
  now rewrite (getitem_in_range wvl_ntf i 0) by lia.
Qed.

Lemma insert_length {A : Type} (l : list A) (i : Z) (x : A) :
  List.length (PyList.insert l i x) = S (List.length l).
Proof.
  unfold PyList.insert. rewrite length_app. cbn [List.length].
  rewrite length_firstn, length_skipn. lia.
Qed.

(** What the block computes on a grid of at least two wavelengths. *)
Lemma main_delta_two_or_more (a b : Q) (rest : list Q) :
  let wvl_lgr := a :: b :: rest in
  let wvl_ntf := midpoints wvl_lgr in
  main_delta wvl_lgr
  = Ok (PyList.insert
          (PyList.insert (differences wvl_ntf) 0 (2 * (average2 a b - a)))
          (-1) (2 * (last wvl_lgr 0 - last wvl_ntf 0))).
Proof.
  intros wvl_lgr wvl_ntf. unfold main_delta.
  rewrite main_wvl_ntf_midpoints. cbn [bind]. fold wvl_ntf.
  rewrite delta_differences. cbn [bind].
  change (PyList.getitem wvl_ntf 0) with (@Ok Q (average2 a b)).
  change (PyList.getitem wvl_lgr 0) with (@Ok Q a). cbn [bind].
  rewrite (getitem_last wvl_lgr 0) by discriminate. cbn [bind].
  rewrite (getitem_last wvl_ntf 0) by discriminate. reflexivity.
Qed.

(** [l.insert(-1, y)] on a non-empty list puts [y] before the last
    element. *)
Lemma insert_minus_one {A : Type} (l : list A) (y d : A) :
  l <> [] -> PyList.insert l (-1) y = (removelast l ++ [y; last l d])%list.
Proof.
  intros Hne. rewrite (app_removelast_last d Hne) at 1.
  unfold PyList.insert, PyList.len. cbn [Z.ltb Z.compare].
  rewrite length_app. cbn [List.length].
  replace (Z.to_nat (Z.max 0 (-1 + Z.of_nat (List.length (removelast l) + 1))))
    with (List.length (removelast l) + 0)%nat by lia.
  rewrite firstn_app_2, skipn_app, Nat.add_0_r, skipn_all.
  replace (List.length (removelast l) - List.length (removelast l))%nat
    with 0%nat by lia.
  cbn [firstn skipn]. now rewrite app_nil_r.
Qed.

(** X15.  On three or more wavelengths the block returns, in this order:
    the first channel's delta, the interior differences but the last, the
    last channel's delta, and then the last interior difference. *)
Lemma main_delta_three_or_more (a b c : Q) (rest : list Q) :
  let wvl_lgr := a :: b :: c :: rest in
  let wvl_ntf := midpoints wvl_lgr in
  let interior := differences wvl_ntf in
  main_delta wvl_lgr
  = Ok (2 * (average2 a b - a)
        :: (removelast interior
            ++ [2 * (last wvl_lgr 0 - last wvl_ntf 0); last interior 0])%list).
Proof.
  intros wvl_lgr wvl_ntf interior.
  unfold wvl_lgr. rewrite main_delta_two_or_more.
  fold wvl_lgr. fold wvl_ntf. fold interior.
  change (PyList.insert interior 0 (2 * (average2 a b - a)))
    with (2 * (average2 a b - a) :: interior).
  rewrite (insert_minus_one _ _ 0) by discriminate.
  assert (Hne : interior <> []) by discriminate.
  destruct interior as [|x interior']; [now elim Hne |]. reflexivity.
Qed.

(** C8 (amended).  The block validates nothing.  On fewer than two
    wavelengths it raises [IndexError]; on two or more, increasing or not,
    it returns a sequence of the same length. *)
Theorem main_delta_without_validation (wvl_lgr : list Q) :
  ((List.length wvl_lgr < 2)%nat -> main_delta wvl_lgr = Raise IndexError)
  /\ ((2 <= List.length wvl_lgr)%nat ->
      exists delta,
        main_delta wvl_lgr = Ok delta
        /\ List.length delta = List.length wvl_lgr).
Proof.
  destruct wvl_lgr as [|a [|b rest]].
  - split; [reflexivity | simpl; lia].
  - split; [reflexivity | simpl; lia].
  - split; [simpl; lia | intros _].
    eexists. split; [apply main_delta_two_or_more |].
    rewrite !insert_length. unfold differences, midpoints.
    rewrite !adjacent_length. simpl. lia.
Qed.

Lemma main_delta_decreasing_grid :
  exists delta,
    main_delta [3; 2; 1] = Ok delta /\ List.length delta = 3%nat.
Proof.
  apply (proj2 (main_delta_without_validation [3; 2; 1])). simpl. lia.
Defined.

(** C8, as stated, fails: a decreasing grid and a grid of two wavelengths
    both yield deltas, and nothing is raised. *)
Lemma main_delta_raises_no_InvalidGridError :
  (exists delta,
      main_delta [3; 2; 1] = Ok delta /\ Forall2 Qeq delta [-1; -1; -1])
  /\ (exists delta,
        main_delta [1; 2] = Ok delta /\ Forall2 Qeq delta [1; 1]).
Proof.
  split; eexists; (split; [reflexivity | repeat constructor]).
Qed.

(** C1.  On the grid [1, 2, 4, 8] the block returns [1, 3/2, 4, 3]:
    [insert(-1, ...)] puts the last channel's delta, [2 * (8 - 6) = 4],
    before the last interior difference [6 - 3 = 3] and not at the end.
    On the uniform grid [1, 2, 3, 4] all deltas are 1, so the order does
    not show. *)
Theorem main_delta_last_edge_before_last_difference :
  (exists delta,
      main_delta [1; 2; 4; 8] = Ok delta
      /\ Forall2 Qeq delta [1; 3 # 2; 4; 3]
      /\ ~ Forall2 Qeq delta [1; 3 # 2; 3; 4])
  /\ (exists delta,
        main_delta [1; 2; 3; 4] = Ok delta
        /\ Forall2 Qeq delta [1; 1; 1; 1]).
Proof.
  split; eexists.
  - split; [reflexivity |]. split; [repeat constructor |].
    intros H. inversion H as [|? ? ? ? _ H1]; subst.
    inversion H1 as [|? ? ? ? _ H2]; subst.
    inversion H2 as [|? ? ? ? F _]; subst.
    vm_compute in F. discriminate.
  - split; [reflexivity | repeat constructor].
Qed.

(** ** [translateTime] *)

Lemma digit_code (k : Z) :
  (0 <= k < 10)%Z -> nat_of_ascii (digit k) = (48 + Z.to_nat k)%nat.
Proof.
  intros Hk. unfold digit. apply nat_ascii_embedding. lia.
Qed.

Lemma digit_is_no_separator (k : Z) (sep : ascii) :
  (0 <= k < 10)%Z -> (nat_of_ascii sep < 48)%nat \/ (57 < nat_of_ascii sep)%nat ->
  Ascii.eqb (digit k) sep = false.
Proof.
  intros Hk Hsep. apply Ascii.eqb_neq. intros E.
  apply (f_equal nat_of_ascii) in E. rewrite digit_code in E by exact Hk. lia.
Qed.

Lemma digits_value_digit (k : Z) (rest : string) (acc : Z) :
  (0 <= k < 10)%Z ->
  digits_value (String (digit k) rest) acc = digits_value rest (10 * acc + k)%Z.
Proof.
  intros Hk. cbn [digits_value]. rewrite digit_code by exact Hk.
  replace (48 <=? 48 + Z.to_nat k)%nat with true
    by (symmetry; apply Nat.leb_le; lia).
  replace (48 + Z.to_nat k <=? 57)%nat with true
    by (symmetry; apply Nat.leb_le; lia).
  cbn [andb]. f_equal. lia.
Qed.

Lemma digits_value_pad2 (n : Z) :
  (0 <= n < 100)%Z -> digits_value (pad2 n) 0 = Some n.
Proof.
  intros Hn. unfold pad2.
  rewrite !digits_value_digit by (Z.div_mod_to_equations; lia).
  cbn [digits_value]. f_equal. Z.div_mod_to_equations. lia.
Qed.

Lemma digits_value_pad4 (n : Z) :
  (0 <= n < 10000)%Z -> digits_value (pad4 n) 0 = Some n.
Proof.
  intros Hn. unfold pad4, pad2.
  rewrite !digits_value_digit by (Z.div_mod_to_equations; lia).
  cbn [digits_value]. f_equal. Z.div_mod_to_equations. lia.
Qed.

Lemma split_at_digit (sep : ascii) (k : Z) (s : string) :
  (0 <= k < 10)%Z -> (nat_of_ascii sep < 48)%nat \/ (57 < nat_of_ascii sep)%nat ->
  split_at sep (String (digit k) s)
  = match split_at sep s with
    | Some (before, after) => Some (String (digit k) before, after)
    | None => None
    end.
Proof.
  intros Hk Hsep. cbn [split_at].
  now rewrite digit_is_no_separator.
Qed.

Lemma split_at_pad2 (sep : ascii) (n : Z) (rest : string) :
  (0 <= n < 100)%Z -> (nat_of_ascii sep < 48)%nat \/ (57 < nat_of_ascii sep)%nat ->
  split_at sep (pad2 n ++ String sep rest) = Some (pad2 n, rest).
Proof.
  intros Hn Hsep. unfold pad2. cbn [append].
  rewrite !split_at_digit by (try exact Hsep; Z.div_mod_to_equations; lia).
  cbn [split_at]. now rewrite Ascii.eqb_refl.
Qed.

Lemma split_at_pad4 (sep : ascii) (n : Z) (rest : string) :
  (0 <= n < 10000)%Z -> (nat_of_ascii sep < 48)%nat \/ (57 < nat_of_ascii sep)%nat ->
  split_at sep (pad4 n ++ String sep rest) = Some (pad4 n, rest).
Proof.
  intros Hn Hsep. unfold pad4, pad2. cbn [append].
  rewrite !split_at_digit by (try exact Hsep; Z.div_mod_to_equations; lia).
  cbn [split_at]. now rewrite Ascii.eqb_refl.
Qed.

Lemma one_or_two_digits_pad2 (lo hi n : Z) :
  (0 <= n < 100)%Z -> (lo <= n <= hi)%Z ->
  one_or_two_digits lo hi (pad2 n) = Some n.
Proof.
  intros Hn Hrange. unfold one_or_two_digits.
  rewrite digits_value_pad2 by exact Hn.
  change (String.length (pad2 n)) with 2%nat. cbn [Nat.eqb orb andb].
  replace (lo <=? n)%Z with true by (symmetry; apply Z.leb_le; lia).
  replace (n <=? hi)%Z with true by (symmetry; apply Z.leb_le; lia).
  reflexivity.
Qed.

Lemma directive_d_pad2 (n : Z) :
  (1 <= n <= 31)%Z -> directive_d (pad2 n) = Some n.
Proof.
  intros Hn. unfold directive_d, pad2. cbv beta iota. fold (pad2 n).
  rewrite digit_is_no_separator
    by (try (left; cbn; lia); Z.div_mod_to_equations; lia).
  apply one_or_two_digits_pad2; lia.
Qed.

Lemma days_in_month_bounds (year month : Z) :
  (28 <= days_in_month year month <= 31)%Z.
Proof.
  unfold days_in_month.
  destruct (month =? 2)%Z; [destruct (is_leap year); lia |].
  destruct (_ || _); lia.
Qed.

Lemma valid_datetime_bounds (t : struct_time) :
  valid_datetime t = true ->
  (1 <= tm_year t <= 9999 /\ 1 <= tm_mon t <= 12
   /\ 1 <= tm_mday t <= days_in_month (tm_year t) (tm_mon t)
   /\ 0 <= tm_hour t <= 23 /\ 0 <= tm_min t <= 59 /\ 0 <= tm_sec t <= 59)%Z.
Proof.
  unfold valid_datetime. rewrite !andb_true_iff, !Z.leb_le. tauto.
Qed.

(** A zero-padded timestamp of a valid date and time parses to its fields. *)
Lemma strptime_timestamp (year month day hour minute second : Z) :
  valid_datetime (mk_struct_time year month day hour minute second) = true ->
  strptime (timestamp year month day hour minute second)
  = Ok (mk_struct_time year month day hour minute second).
Proof.
  intros Hvalid. pose proof (valid_datetime_bounds _ Hvalid) as Hb.
  cbn [tm_year tm_mon tm_mday tm_hour tm_min tm_sec] in Hb.
  pose proof (days_in_month_bounds year month) as Hdim.
  unfold strptime, timestamp.
  cbn [append].
  rewrite split_at_pad4 by (try (left; cbn; lia); lia).
  rewrite split_at_pad2 by (try (left; cbn; lia); lia).
  rewrite split_at_pad2 by (try (left; cbn; lia); lia).
  rewrite split_at_pad2 by (try (right; cbn; lia); lia).
  rewrite split_at_pad2 by (try (right; cbn; lia); lia).
  unfold directive_Y, directive_m, directive_H, directive_M, directive_S.
  change (String.length (pad4 year)) with 4%nat. cbn [Nat.eqb].
  rewrite digits_value_pad4 by lia.
  rewrite directive_d_pad2 by lia.
  rewrite !one_or_two_digits_pad2 by lia.
  now rewrite Hvalid.
Qed.

(** C4.  For a timestamp in the layout [YYYY.MM.DD-HH:MM:SS] of a valid
    date and time, [translateTime] returns the number of days from
    1970-01-01 to the date, plus [(hour*3600 + minute*60 + second) / 86400];
    ["1970.01.02-00:00:00"] gives 1 and ["1970.01.01-12:00:00"] gives 1/2. *)
Theorem translateTime_days_since_epoch :
  (forall year month day hour minute second,
      valid_datetime (mk_struct_time year month day hour minute second) = true ->
      exists days,
        translateTime (timestamp year month day hour minute second) = Ok days
        /\ days == inject_Z (toordinal year month day - toordinal 1970 1 1)
                   + (inject_Z hour * 3600 + inject_Z minute * 60
                      + inject_Z second) / 86400)
  /\ (exists days,
        translateTime "1970.01.02-00:00:00" = Ok days /\ days == 1)
  /\ (exists days,
        translateTime "1970.01.01-12:00:00" = Ok days /\ days == 1 # 2).
Proof.
  split; [| split; eexists; (split; [reflexivity | reflexivity])].
  intros year month day hour minute second Hvalid.
  unfold translateTime. rewrite (strptime_timestamp _ _ _ _ _ _ Hvalid).
  cbn [bind tm_year tm_mon tm_mday tm_hour tm_min tm_sec].
  eexists. split; [reflexivity |].
  unfold _UNIX_BASETIME. rewrite inject_Z_mult.
  change (inject_Z 86400) with 86400. field.
Qed.

(** The timestamp of the sample file name. *)
Lemma translateTime_2016_04_07 :
  exists days,
    translateTime "2016.04.07-12:00:07" = Ok days
    /\ days == inject_Z 16898 + (12 * 3600 + 7) / 86400.
Proof.
  destruct (proj1 translateTime_days_since_epoch 2016 4 7 12 0 7 eq_refl)%Z
    as [days [Hrun Hdays]].
  exists days. split; [exact Hrun |].
  rewrite Hdays. reflexivity.
Defined.

(** ** The downwelling flux calculator *)

Lemma zip_with_nth_error {A B C : Type} (f : A -> B -> C)
    (l : list A) (m : list B) (j : nat) (a : A) (b : B) :
  nth_error l j = Some a -> nth_error m j = Some b ->
  nth_error (Flux.zip_with f l m) j = Some (f a b).
Proof.
  revert m j. induction l as [|x l IH]; intros [|y m] [|j]; simpl;
    try discriminate.
  - now intros [= ->] [= ->].
  - apply IH.
Qed.

Lemma sum_below_shift (n : nat) (f : nat -> Q) :
  Flux.sum_below (S n) f == f 0%nat + Flux.sum_below n (fun j => f (S j)).
Proof.
  induction n as [|n IH].
  - simpl. ring.
  - change (Flux.sum_below (S (S n)) f)
      with (Flux.sum_below (S n) f + f (S n)).
    rewrite IH. simpl. ring.
Qed.

(** The scalar flux of a row is the sum over the channels. *)
Lemma dot_sum_below (row deltas : list Q) :
  Flux.dot row deltas
  == Flux.sum_below (Nat.min (List.length row) (List.length deltas))
       (fun j => nth j row 0 * nth j deltas 0).
Proof.
  unfold Flux.dot. revert deltas.
  induction row as [|a row IH]; intros [|b deltas]; try reflexivity.
  cbn [Flux.zip_with fold_right List.length Nat.min].
  rewrite sum_below_shift, IH. reflexivity.
Qed.

(** C2.  With a calibration curve as long as the wavelength grid, the flux
    calculator returns, for every reading [i], a row whose entry at every
    channel [j] is [spectra[i][j] * calibrationCurve[j] /
    (integrationTimeSeconds * sensorAreaM2)], and a scalar flux equal to the
    sum over the channels [j] of that row's entry times [deltas[j]]. *)
Theorem flux_per_channel_and_sum
    (wavelengths : list Q) (spectra : list (list Q))
    (deltas calibrationCurve : list Q)
    (integrationTimeSeconds sensorAreaM2 : Q) :
  List.length calibrationCurve = List.length wavelengths ->
  exists spectralFlux scalarFlux,
    Flux.calculateDownwellingSpectralFlux wavelengths spectra deltas
      calibrationCurve integrationTimeSeconds sensorAreaM2
    = inr (spectralFlux, scalarFlux)
    /\ List.length spectralFlux = List.length spectra
    /\ List.length scalarFlux = List.length spectra
    /\ forall i counts,
        nth_error spectra i = Some counts ->
        exists row total,
          nth_error spectralFlux i = Some row
          /\ nth_error scalarFlux i = Some total
          /\ (forall j count coefficient,
                nth_error counts j = Some count ->
                nth_error calibrationCurve j = Some coefficient ->
                nth_error row j
                = Some (count * coefficient
                        / (integrationTimeSeconds * sensorAreaM2)))
          /\ total
             == Flux.sum_below
                  (Nat.min (List.length row) (List.length deltas))
                  (fun j => nth j row 0 * nth j deltas 0).
Proof.
  intros Hlen. unfold Flux.calculateDownwellingSpectralFlux.
  rewrite Hlen, Nat.eqb_refl.
  eexists. eexists. split; [reflexivity |].
  rewrite !length_map. split; [reflexivity |]. split; [reflexivity |].
  intros i counts Hi.
  eexists. eexists.
  split; [rewrite nth_error_map, Hi; reflexivity |].
  split; [rewrite !nth_error_map, Hi; reflexivity |].
  split.
  - intros j count coefficient Hcount Hcoefficient.
    now rewrite (zip_with_nth_error _ _ _ _ _ _ Hcount Hcoefficient).
  - apply dot_sum_below.
Qed.

(** One channel, one reading: 10 counts, calibration 2, delta 1, one second
    and one square metre give the spectral flux 20 and the scalar flux 20. *)
Lemma flux_single_channel :
  exists spectralFlux scalarFlux,
    Flux.calculateDownwellingSpectralFlux [500] [[10]] [1] [2] 1 1
    = inr (spectralFlux, scalarFlux)
    /\ nth_error spectralFlux 0 = Some [10 * 2 / (1 * 1)]
    /\ Forall2 Qeq scalarFlux [20].
Proof.
  destruct (flux_per_channel_and_sum [500] [[10]] [1] [2] 1 1 eq_refl)
    as [spectralFlux [scalarFlux [Hrun _]]].
  exists spectralFlux, scalarFlux. split; [exact Hrun |].
  injection Hrun as <- <-. split; [reflexivity | repeat constructor].
Defined.

(** * Further properties of the converter *)

(** ** Names written to the output *)

Lemma replace_removes (a b : ascii) (s : string) :
  a <> b -> Str.mem a (Str.replace a b s) = false.
Proof.
  intros Hab. induction s as [|c s IH]; [reflexivity |].
  cbn [Str.replace Str.mem]. rewrite IH, orb_false_r.
  destruct (Ascii.eqb_spec c a) as [->|Hca]; apply Ascii.eqb_neq; congruence.
Qed.



Lemma dict_get_In {V : Type} (d : list (string * V)) (k : string) (v : V) :
  dict_get d k = Some v -> In (k, v) d.
Proof.
  induction d as [|[k' v'] d IH]; [discriminate |]. cbn [dict_get].
  destruct (String.eqb_spec k k') as [->|_].
  - intros [= ->]. now left.
  - intros H. right. now apply IH.
Qed.

(** X1.  A name that [renameTheValue] returns contains no space. *)
Theorem renameTheValue_leaves_no_space (name renamed : string) :
  renameTheValue name = Ok renamed -> Str.mem " " renamed = false.
Proof.
  unfold renameTheValue, unit_value_replace.
  destruct (dict_get _UNIT_DICTIONARY name) as [[? ? ?|s]|].
  - discriminate.
  - intros [= <-]. now apply replace_removes.
  - destruct (dict_get _NAMES name) as [long_name|].
    + intros [= <-]. now apply replace_removes.
    + destruct (Str.contains "sensor co2" name);
        intros [= <-]; now apply replace_removes.
Qed.

Lemma renameTheValue_wind_speed :
  renameTheValue "wind speed" = Ok "wind_speed"
  /\ Str.mem " " "wind_speed" = false.
Proof.
  split; [reflexivity |].
  exact (renameTheValue_leaves_no_space "wind speed" "wind_speed" eq_refl).
Defined.

(** X2.  [renameTheValue] raises exactly on the unit labels that
    [_UNIT_DICTIONARY] binds to a dictionary (every label but the empty
    one), and what it raises is [AttributeError]. *)
Theorem renameTheValue_raises_on_unit_labels (name : string) (e : exception) :
  renameTheValue name = Raise e
  <-> e = AttributeError
      /\ exists original SI power,
          dict_get _UNIT_DICTIONARY name = Some (UnitDict original SI power).
Proof.
  unfold renameTheValue, unit_value_replace.
  destruct (dict_get _UNIT_DICTIONARY name) as [[original SI power|s]|].
  - split.
    + intros [= <-]. split; [reflexivity |]. now exists original, SI, power.
    + now intros [-> _].
  - split; [discriminate | intros [_ [? [? [? F]]]]; discriminate].
  - split.
    + destruct (dict_get _NAMES name); [discriminate |].
      destruct (Str.contains "sensor co2" name); discriminate.
    + intros [_ [? [? [? F]]]]. discriminate.
Qed.



(** ** What the extractors return, and when *)

Lemma comprehension_inv {A B : Type} (f : A -> result B)
    (l : list A) (ys : list B) :
  comprehension f l = Ok ys -> Forall2 (fun x y => f x = Ok y) l ys.
Proof.
  revert ys. induction l as [|x l IH]; intros ys; cbn [comprehension].
  - intros [= <-]. constructor.
  - destruct (f x) as [y|e] eqn:Hx; cbn [bind]; [| discriminate].
    destruct (comprehension f l) as [ys'|e]; cbn [bind]; [| discriminate].
    intros [= <-]. constructor; [exact Hx | now apply IH].
Qed.

Lemma comprehension_raises {A B : Type} (f : A -> result B) (l : list A) :
  Exists (fun x => exists e, f x = Raise e) l ->
  exists e, comprehension f l = Raise e.
Proof.
  intros Hex. destruct (comprehension f l) as [ys|e] eqn:Hrun;
    [| now exists e].
  exfalso. apply comprehension_inv in Hrun.
  induction Hrun as [|x y l ys Hxy _ IH].
  - inversion Hex.
  - inversion Hex as [? ? [e He]|? ? Hrest]; subst.
    + congruence.
    + now apply IH.
Qed.

Lemma map_const_repeat {A B : Type} (b : B) (l : list A) :
  map (fun _ => b) l = repeat b (List.length l).
Proof.
  induction l as [|x l IH]; [reflexivity |]. cbn. now rewrite IH.
Qed.

Section ExtractorInversion.

Variable float_of_string : string -> option Q.

(** X4.  [getListOfWeatherStationValue] returns only when the batch is not
    empty, the unit of its first reading is a label that [_UNIT_DICTIONARY]
    binds to a dictionary, and every reading has a convertible ["value"]
    and ["rawValue"]; the three sequences returned have one entry per
    reading, and the units are the SI name repeated. *)
Theorem getListOfWeatherStationValue_returned
    (arrayOfJSON : list json) (dataName : string)
    (values : list Q) (units : list string) (rawValues : list Q) :
  getListOfWeatherStationValue float_of_string arrayOfJSON dataName
  = Ok (values, units, rawValues) ->
  exists first rest label original SI power members,
    arrayOfJSON = first :: rest
    /\ weather_station_member first dataName "unit" = Ok (JStr label)
    /\ dict_get _UNIT_DICTIONARY label = Some (UnitDict original SI power)
    /\ Forall2 (fun reading v =>
                  (x <- weather_station_member reading dataName "value" ;;
                   float float_of_string x) = Ok v) arrayOfJSON members
    /\ values = map (fun v => v * power) members
    /\ units = repeat SI (List.length arrayOfJSON)
    /\ Forall2 (fun reading r =>
                  (x <- weather_station_member reading dataName "rawValue" ;;
                   float float_of_string x) = Ok r) arrayOfJSON rawValues
    /\ List.length values = List.length arrayOfJSON
    /\ List.length rawValues = List.length arrayOfJSON.
Proof.
  unfold getListOfWeatherStationValue.
  destruct arrayOfJSON as [|first rest]; [discriminate |].
  change (PyList.getitem (first :: rest) 0) with (Ok first). cbn [bind].
  destruct (weather_station_member first dataName "unit") as [label|e] eqn:Hlabel;
    cbn [bind]; [| discriminate].
  destruct (unit_lookup label) as [converting_to|e] eqn:Hlookup;
    cbn [bind]; [| discriminate].
  destruct (comprehension
              (fun valueMembers =>
                 v <- weather_station_member valueMembers dataName "value" ;; float float_of_string v)
              (first :: rest)) as [members|e] eqn:Hvalues;
    cbn [bind]; [| discriminate].
  destruct converting_to as [original SI power|s]; cbn [unit_power unit_SI bind];
    [| discriminate].
  rewrite comprehension_const. cbn [bind].
  destruct (comprehension
              (fun valueMembers =>
                 v <- weather_station_member valueMembers dataName "rawValue" ;; float float_of_string v)
              (first :: rest)) as [raws|e] eqn:Hraw;
    cbn [bind]; [| discriminate].
  intros [= <- <- <-].
  destruct label as [| | |label| |]; cbn [unit_lookup] in Hlookup;
    try discriminate.
  destruct (dict_get _UNIT_DICTIONARY label) as [entry|] eqn:Hentry;
    [| discriminate].
  injection Hlookup as ->.
  apply comprehension_inv in Hvalues. apply comprehension_inv in Hraw.
  exists first, rest, label, original, SI, power, members.
  repeat split; try assumption.
  - exact (map_const_repeat SI (first :: rest)).
  - unfold scale. rewrite length_map. symmetry. exact (Forall2_length Hvalues).
  - symmetry. exact (Forall2_length Hraw).
Qed.

(** X5.  [sensorVariables] returns only under the same conditions on the
    sensor entry of every reading, with one entry per reading in each of
    its three results. *)
Theorem sensorVariables_returned
    (JSONArray : list json) (sensors : string)
    (values : list Q) (units : list string) (rawValues : list Q) :
  sensorVariables float_of_string JSONArray sensors
  = Ok (values, units, rawValues) ->
  exists first rest label original SI power members,
    JSONArray = first :: rest
    /\ sensor_member first sensors "unit" = Ok (JStr label)
    /\ dict_get _UNIT_DICTIONARY label = Some (UnitDict original SI power)
    /\ Forall2 (fun reading v =>
                  (x <- sensor_member reading sensors "value" ;;
                   float float_of_string x) = Ok v) JSONArray members
    /\ values = map (fun v => v * power) members
    /\ units = repeat SI (List.length JSONArray)
    /\ Forall2 (fun reading r =>
                  (x <- sensor_member reading sensors "rawValue" ;;
                   float float_of_string x) = Ok r) JSONArray rawValues
    /\ List.length values = List.length JSONArray
    /\ List.length rawValues = List.length JSONArray.
Proof.
  unfold sensorVariables.
  destruct JSONArray as [|first rest]; [discriminate |].
  change (PyList.getitem (first :: rest) 0) with (Ok first). cbn [bind].
  destruct (sensor_member first sensors "unit") as [label|e] eqn:Hlabel;
    cbn [bind]; [| discriminate].
  destruct (unit_lookup label) as [converting_to|e] eqn:Hlookup;
    cbn [bind]; [| discriminate].
  destruct (comprehension
              (fun valueMembers =>
                 v <- sensor_member valueMembers sensors "value" ;; float float_of_string v)
              (first :: rest)) as [members|e] eqn:Hvalues;
    cbn [bind]; [| discriminate].
  destruct converting_to as [original SI power|s]; cbn [unit_power unit_SI bind];
    [| discriminate].
  rewrite comprehension_const. cbn [bind].
  destruct (comprehension
              (fun valueMembers =>
                 v <- sensor_member valueMembers sensors "rawValue" ;; float float_of_string v)
              (first :: rest)) as [raws|e] eqn:Hraw;
    cbn [bind]; [| discriminate].
  intros [= <- <- <-].
  destruct label as [| | |label| |]; cbn [unit_lookup] in Hlookup;
    try discriminate.
  destruct (dict_get _UNIT_DICTIONARY label) as [entry|] eqn:Hentry;
    [| discriminate].
  injection Hlookup as ->.
  apply comprehension_inv in Hvalues. apply comprehension_inv in Hraw.
  exists first, rest, label, original, SI, power, members.
  repeat split; try assumption.
  - exact (map_const_repeat SI (first :: rest)).
  - unfold scale. rewrite length_map. symmetry. exact (Forall2_length Hvalues).
  - symmetry. exact (Forall2_length Hraw).
Qed.

(** X6.  The extractors return all of a batch or nothing: when the
    ["value"] member of some reading is missing or cannot be converted,
    [getListOfWeatherStationValue] and [sensorVariables] raise. *)
Theorem extractors_raise_on_a_bad_reading :
  (forall arrayOfJSON dataName,
      Exists (fun reading =>
                exists e,
                  (x <- weather_station_member reading dataName "value" ;;
                   float float_of_string x) = Raise e) arrayOfJSON ->
      exists e,
        getListOfWeatherStationValue float_of_string arrayOfJSON dataName
        = Raise e)
  /\ (forall JSONArray sensors,
        Exists (fun reading =>
                  exists e,
                    (x <- sensor_member reading sensors "value" ;;
                     float float_of_string x) = Raise e) JSONArray ->
        exists e, sensorVariables float_of_string JSONArray sensors = Raise e).
Proof.
  split.
  - intros arrayOfJSON dataName Hbad.
    apply comprehension_raises in Hbad. destruct Hbad as [e Hbad].
    unfold getListOfWeatherStationValue.
    destruct (PyList.getitem arrayOfJSON 0) as [first|e0]; cbn [bind];
      [| now exists e0].
    destruct (weather_station_member first dataName "unit") as [label|e0];
      cbn [bind]; [| now exists e0].
    destruct (unit_lookup label) as [converting_to|e0]; cbn [bind];
      [| now exists e0].
    rewrite Hbad. now exists e.
  - intros JSONArray sensors Hbad.
    apply comprehension_raises in Hbad. destruct Hbad as [e Hbad].
    unfold sensorVariables.
    destruct (PyList.getitem JSONArray 0) as [first|e0]; cbn [bind];
      [| now exists e0].
    destruct (sensor_member first sensors "unit") as [label|e0];
      cbn [bind]; [| now exists e0].
    destruct (unit_lookup label) as [converting_to|e0]; cbn [bind];
      [| now exists e0].
    rewrite Hbad. now exists e.
Qed.

(** X7.  [handleSpectrometer] returns only when the batch is not empty; the
    wavelength grid it returns is the one of the first reading, and the
    spectra and thresholds have one entry per reading, in the order of the
    batch. *)
Theorem handleSpectrometer_returned
    (JSONArray : list json) (wvl_lgr : json)
    (spectrum : list json) (maxFixedIntensity : list Q) :
  handleSpectrometer float_of_string JSONArray
  = Ok (wvl_lgr, spectrum, maxFixedIntensity) ->
  exists first rest,
    JSONArray = first :: rest
    /\ spectrometer_member first "wavelength" = Ok wvl_lgr
    /\ Forall2 (fun reading s => spectrometer_member reading "spectrum" = Ok s)
               JSONArray spectrum
    /\ Forall2 (fun reading m =>
                  (v <- spectrometer_member reading "maxFixedIntensity" ;;
                   float float_of_string v) = Ok m)
               JSONArray maxFixedIntensity
    /\ List.length spectrum = List.length JSONArray
    /\ List.length maxFixedIntensity = List.length JSONArray.
Proof.
  unfold handleSpectrometer.
  destruct JSONArray as [|first rest]; [discriminate |].
  change (PyList.getitem (first :: rest) 0) with (Ok first). cbn [bind].
  destruct (spectrometer_member first "wavelength") as [grid|e] eqn:Hgrid;
    cbn [bind]; [| discriminate].
  destruct (comprehension
              (fun valueMembers => spectrometer_member valueMembers "spectrum")
              (first :: rest)) as [spectra|e] eqn:Hspectra;
    cbn [bind]; [| discriminate].
  destruct (comprehension
              (fun valueMembers =>
                 v <- spectrometer_member valueMembers "maxFixedIntensity" ;;
                 float float_of_string v)
              (first :: rest)) as [thresholds|e] eqn:Hmax;
    cbn [bind]; [| discriminate].
  intros [= <- <- <-].
  apply comprehension_inv in Hspectra. apply comprehension_inv in Hmax.
  exists first, rest. repeat split; try assumption.
  - symmetry. exact (Forall2_length Hspectra).
  - symmetry. exact (Forall2_length Hmax).
Qed.

(** X8.  On an empty batch the three extractors raise [IndexError], for
    every field. *)
Theorem extractors_on_empty_batch (name : string) :
  getListOfWeatherStationValue float_of_string [] name = Raise IndexError
  /\ sensorVariables float_of_string [] name = Raise IndexError
  /\ handleSpectrometer float_of_string [] = Raise IndexError.
Proof. repeat split. Qed.

End ExtractorInversion.

Lemma getListOfWeatherStationValue_returned_hPa :
  exists members,
    Forall2 (fun reading v =>
               (x <- weather_station_member reading "temperature" "value" ;;
                float integer_literal x) = Ok v)
            [sample_reading (JStr "1") (JStr "7") "hPa" [] []] members
    /\ [1 * 100] = map (fun v => v * 100) members.
Proof.
  destruct (getListOfWeatherStationValue_returned integer_literal
              [sample_reading (JStr "1") (JStr "7") "hPa" [] []] "temperature"
              [1 * 100] ["pascal"] [7] eq_refl)
    as (first & rest & label & original & SI & power & members
        & Hbatch & Hlabel & Hunit & Hvalues & Hscaled & _).
  injection Hbatch as <- <-.
  vm_compute in Hlabel. injection Hlabel as <-.
  vm_compute in Hunit. injection Hunit as _ _ <-.
  now exists members.
Defined.

Lemma sensorVariables_returned_hPa :
  exists members,
    Forall2 (fun reading v =>
               (x <- sensor_member reading "sensor par" "value" ;;
                float integer_literal x) = Ok v)
            [sample_reading (JStr "1") (JStr "7") "hPa" [] []] members
    /\ [1 * 100] = map (fun v => v * 100) members.
Proof.
  destruct (sensorVariables_returned integer_literal
              [sample_reading (JStr "1") (JStr "7") "hPa" [] []] "sensor par"
              [1 * 100] ["pascal"] [7] eq_refl)
    as (first & rest & label & original & SI & power & members
        & Hbatch & Hlabel & Hunit & Hvalues & Hscaled & _).
  injection Hbatch as <- <-.
  vm_compute in Hlabel. injection Hlabel as <-.
  vm_compute in Hunit. injection Hunit as _ _ <-.
  now exists members.
Defined.

Lemma extractors_raise_on_a_missing_value :
  exists e,
    getListOfWeatherStationValue integer_literal
      [sample_reading (JStr "1") (JStr "7") "hPa" [] [];
       JObj [("weather_station", JObj [])]] "temperature"
    = Raise e.
Proof.
  apply (proj1 (extractors_raise_on_a_bad_reading integer_literal)).
  apply Exists_cons_tl, Exists_cons_hd.
  exists (KeyError (JStr "temperature")). reflexivity.
Defined.

Lemma handleSpectrometer_returned_sample :
  exists first rest,
    [sample_reading (JNum 5) (JNum 7) "m" [1; 2; 3] [10; 20; 30]]
    = first :: rest
    /\ spectrometer_member first "wavelength"
       = Ok (JArr [JNum 1; JNum 2; JNum 3]).
Proof.
  destruct (handleSpectrometer_returned integer_literal
              [sample_reading (JNum 5) (JNum 7) "m" [1; 2; 3] [10; 20; 30]]
              (JArr [JNum 1; JNum 2; JNum 3])
              [JArr [JNum 10; JNum 20; JNum 30]] [16383] eq_refl)
    as (first & rest & Hbatch & Hgrid & _).
  now exists first, rest.
Defined.

(** ** [getSpectrometerInformation] *)

(** X9.  [getSpectrometerInformation] returns exactly when every reading of
    the batch has an integer ["maxFixedIntensity"] and an integer
    ["integration time in ?s"] in its spectrometer record; the two
    sequences are those integers in the order of the batch.  An empty batch
    yields two empty sequences. *)
Theorem getSpectrometerInformation_returns_iff
    (int_of_string : string -> option Z) (arrayOfJSON : list json)
    (maxFixedIntensity integrationTime : list Z) :
  getSpectrometerInformation int_of_string arrayOfJSON
  = Ok (maxFixedIntensity, integrationTime)
  <-> Forall2 (fun reading m =>
                 (v <- spectrometer_member reading "maxFixedIntensity" ;;
                  int int_of_string v) = Ok m)
              arrayOfJSON maxFixedIntensity
      /\ Forall2 (fun reading t =>
                    (v <- spectrometer_member reading "integration time in ?s" ;;
                     int int_of_string v) = Ok t)
                 arrayOfJSON integrationTime.
Proof.
  unfold getSpectrometerInformation. split.
  - destruct (comprehension
                (fun intensityMembers =>
                   v <- spectrometer_member intensityMembers "maxFixedIntensity" ;;
                   int int_of_string v) arrayOfJSON)
      as [ms|e] eqn:Hmax; cbn [bind]; [| discriminate].
    destruct (comprehension
                (fun integrateMembers =>
                   v <- spectrometer_member integrateMembers
                          "integration time in ?s" ;;
                   int int_of_string v) arrayOfJSON)
      as [ts|e] eqn:Htime; cbn [bind]; [| discriminate].
    intros [= <- <-]. split; now apply comprehension_inv.
  - intros [Hmax Htime].
    rewrite (comprehension_Forall2 _ _ _ Hmax). cbn [bind].
    now rewrite (comprehension_Forall2 _ _ _ Htime).
Qed.

(** ** The time axis *)

Lemma days_before_year_succ (year : Z) :
  (days_before_year (year + 1)
   = days_before_year year + (if is_leap year then 366 else 365))%Z.
Proof.
  unfold days_before_year, is_leap.
  replace (year + 1 - 1)%Z with year by lia.
  destruct (Z.eqb_spec (year mod 4) 0), (Z.eqb_spec (year mod 100) 0),
    (Z.eqb_spec (year mod 400) 0); cbn [negb andb orb];
    Z.div_mod_to_equations; lia.
Qed.

Lemma days_before_year_mono (y y' : Z) :
  (y <= y' -> days_before_year y <= days_before_year y')%Z.
Proof.
  unfold days_before_year. intros H. Z.div_mod_to_equations. lia.
Qed.

Lemma month_cases (month : Z) :
  (1 <= month <= 12)%Z ->
  (month = 1 \/ month = 2 \/ month = 3 \/ month = 4 \/ month = 5 \/ month = 6
   \/ month = 7 \/ month = 8 \/ month = 9 \/ month = 10 \/ month = 11
   \/ month = 12)%Z.
Proof. lia. Qed.

(** The days before a month, as a table. *)
Lemma days_before_month_table (year month : Z) :
  (1 <= month <= 12)%Z ->
  days_before_month year month
  = (match month with
     | 1 => 0 | 2 => 31 | 3 => 59 | 4 => 90 | 5 => 120 | 6 => 151 | 7 => 181
     | 8 => 212 | 9 => 243 | 10 => 273 | 11 => 304 | _ => 334
     end
     + (if is_leap year && (2 <? month) then 1 else 0))%Z.
Proof.
  intros Hm. unfold days_before_month, days_in_month.
  destruct (month_cases month Hm) as
    [->|[->|[->|[->|[->|[->|[->|[->|[->|[->|[->| ->]]]]]]]]]]];
    destruct (is_leap year); reflexivity.
Qed.

Lemma days_in_month_table (year month : Z) :
  (1 <= month <= 12)%Z ->
  days_in_month year month
  = (match month with
     | 2 => 28 | 4 | 6 | 9 | 11 => 30 | _ => 31
     end
     + (if is_leap year && (month =? 2) then 1 else 0))%Z.
Proof.
  intros Hm. unfold days_in_month.
  destruct (month_cases month Hm) as
    [->|[->|[->|[->|[->|[->|[->|[->|[->|[->|[->| ->]]]]]]]]]]];
    destruct (is_leap year); reflexivity.
Qed.

(** The ordinal of a date grows with the date. *)
Lemma toordinal_lt (y m d y' m' d' : Z) :
  (1 <= m <= 12 -> 1 <= d <= days_in_month y m ->
   1 <= m' <= 12 -> 1 <= d' <= days_in_month y' m' ->
   y < y' \/ y = y' /\ (m < m' \/ m = m' /\ d < d') ->
   toordinal y m d < toordinal y' m' d')%Z.
Proof.
  intros Hm Hd Hm' Hd' Hlt. unfold toordinal.
  rewrite (days_in_month_table y m Hm) in Hd.
  rewrite (days_in_month_table y' m' Hm') in Hd'.
  rewrite (days_before_month_table y m Hm), (days_before_month_table y' m' Hm').
  destruct Hlt as [Hy | [<- Hlt]].
  - pose proof (days_before_year_mono (y + 1) y' ltac:(lia)) as Hmono.
    rewrite days_before_year_succ in Hmono. revert Hmono.
    generalize (days_before_year y) (days_before_year y'). intros b b' Hmono.
    destruct (month_cases m Hm) as
      [->|[->|[->|[->|[->|[->|[->|[->|[->|[->|[->| ->]]]]]]]]]]];
      destruct (month_cases m' Hm') as
        [->|[->|[->|[->|[->|[->|[->|[->|[->|[->|[->| ->]]]]]]]]]]];
      cbn in Hd, Hd' |- *;
      destruct (is_leap y), (is_leap y'); cbn in Hd, Hd', Hmono |- *; lia.
  - generalize (days_before_year y). intros b.
    destruct (month_cases m Hm) as
      [->|[->|[->|[->|[->|[->|[->|[->|[->|[->|[->| ->]]]]]]]]]]];
      destruct (month_cases m' Hm') as
        [->|[->|[->|[->|[->|[->|[->|[->|[->|[->|[->| ->]]]]]]]]]]];
      cbn in Hd, Hd' |- *;
      destruct (is_leap y); cbn in Hd, Hd' |- *; lia.
Qed.

(** What [translateTime] returns on a string that [strptime] accepts. *)
Lemma translateTime_seconds (timeString : string) (t : struct_time) :
  strptime timeString = Ok t ->
  exists days,
    translateTime timeString = Ok days
    /\ days == inject_Z (seconds_since_epoch t) / 86400.
Proof.
  intros Hparse. unfold translateTime. rewrite Hparse. cbn [bind].
  eexists. split; [reflexivity |].
  unfold seconds_since_epoch.
  rewrite !inject_Z_plus, !inject_Z_mult.
  change (3600 * 24) with 86400.
  change (inject_Z 3600) with 3600. change (inject_Z 60) with 60.
  reflexivity.
Qed.







Lemma seconds_of_day_bounds (t : struct_time) :
  valid_datetime t = true ->
  (0 <= tm_hour t * 3600 + tm_min t * 60 + tm_sec t < 86400)%Z.
Proof.
  intros Hvalid. apply valid_datetime_bounds in Hvalid. lia.
Qed.

Lemma strptime_timestamp_of (t : struct_time) :
  valid_datetime t = true -> strptime (timestamp_of t) = Ok t.
Proof.
  intros Hvalid. destruct t as [year month day hour minute second].
  unfold timestamp_of. cbn [tm_year tm_mon tm_mday tm_hour tm_min tm_sec].
  apply strptime_timestamp. exact Hvalid.
Qed.

(** X11.  The time of day adds less than one day: for a valid date and
    time, the value lies between the whole number of days from 1970-01-01
    to the date (inclusive) and that number plus one (exclusive). *)
Theorem translateTime_within_the_day (t : struct_time) :
  valid_datetime t = true ->
  exists days,
    translateTime (timestamp_of t) = Ok days
    /\ inject_Z (toordinal (tm_year t) (tm_mon t) (tm_mday t) - _UNIX_BASETIME)
       <= days
    /\ days
       < inject_Z (toordinal (tm_year t) (tm_mon t) (tm_mday t) - _UNIX_BASETIME)
         + 1.
Proof.
  intros Hvalid.
  destruct (translateTime_seconds _ _ (strptime_timestamp_of t Hvalid))
    as [days [Hrun Hdays]].
  exists days. split; [exact Hrun |].
  pose proof (seconds_of_day_bounds t Hvalid) as Hday.
  rewrite Hdays. split.
  - apply Qle_shift_div_l; [reflexivity |].
    change 86400 with (inject_Z 86400). rewrite <- inject_Z_mult, <- Zle_Qle.
    unfold seconds_since_epoch. lia.
  - apply Qlt_shift_div_r; [reflexivity |].
    change 1 with (inject_Z 1). change 86400 with (inject_Z 86400).
    rewrite <- inject_Z_plus, <- inject_Z_mult, <- Zlt_Qlt.
    unfold seconds_since_epoch. lia.
Qed.

Lemma seconds_since_epoch_lt (t u : struct_time) :
  valid_datetime t = true -> valid_datetime u = true -> earlier t u ->
  (seconds_since_epoch t < seconds_since_epoch u)%Z.
Proof.
  intros Ht Hu Hlt.
  pose proof (seconds_of_day_bounds t Ht) as Hdt.
  pose proof (seconds_of_day_bounds u Hu) as Hdu.
  apply valid_datetime_bounds in Ht, Hu.
  unfold seconds_since_epoch. unfold earlier in Hlt.
  assert (Hdate :
            (tm_year t < tm_year u
             \/ tm_year t = tm_year u
                /\ (tm_mon t < tm_mon u
                    \/ tm_mon t = tm_mon u /\ tm_mday t < tm_mday u))%Z
            \/ (toordinal (tm_year t) (tm_mon t) (tm_mday t)
                = toordinal (tm_year u) (tm_mon u) (tm_mday u)
                /\ tm_hour t * 3600 + tm_min t * 60 + tm_sec t
                   < tm_hour u * 3600 + tm_min u * 60 + tm_sec u)%Z).
  { destruct Hlt as [H|[Ey [H|[Em [H|[Ed H]]]]]].
    - left. now left.
    - left. right. split; [exact Ey | now left].
    - left. right. split; [exact Ey | right; now split].
    - right. rewrite Ey, Em, Ed. split; [reflexivity | lia]. }
  destruct Hdate as [Hdate|[Heq Hsec]].
  - assert (Hord :
              (toordinal (tm_year t) (tm_mon t) (tm_mday t)
               < toordinal (tm_year u) (tm_mon u) (tm_mday u))%Z)
      by (apply toordinal_lt; tauto).
    lia.
  - lia.
Qed.

(** X12.  [translateTime] keeps the order of time: of two valid dates and
    times, the earlier one gets the smaller value. *)
Theorem translateTime_increasing (t u : struct_time) :
  valid_datetime t = true -> valid_datetime u = true -> earlier t u ->
  exists before after,
    translateTime (timestamp_of t) = Ok before
    /\ translateTime (timestamp_of u) = Ok after
    /\ before < after.
Proof.
  intros Ht Hu Hlt.
  destruct (translateTime_seconds _ _ (strptime_timestamp_of t Ht))
    as [before [Hbefore Eb]].
  destruct (translateTime_seconds _ _ (strptime_timestamp_of u Hu))
    as [after [Hafter Ea]].
  exists before, after. split; [exact Hbefore |]. split; [exact Hafter |].
  rewrite Eb, Ea.
  apply Qlt_shift_div_r; [reflexivity |].
  unfold Qdiv. rewrite <- Qmult_assoc, (Qmult_comm (/ 86400)), Qmult_inv_r,
    Qmult_1_r by discriminate.
  rewrite <- Zlt_Qlt. now apply seconds_since_epoch_lt.
Qed.

Lemma translateTime_within_the_day_2016 :
  exists days,
    translateTime "2016.04.07-12:00:07" = Ok days
    /\ inject_Z 16898 <= days /\ days < inject_Z 16898 + 1.
Proof.
  exact (translateTime_within_the_day
           (mk_struct_time 2016 4 7 12 0 7) eq_refl).
Defined.

Lemma translateTime_increasing_over_new_year :
  exists before after,
    translateTime "2015.12.31-23:59:59" = Ok before
    /\ translateTime "2016.01.01-00:00:00" = Ok after
    /\ before < after.
Proof.
  apply (translateTime_increasing
           (mk_struct_time 2015 12 31 23 59 59) (mk_struct_time 2016 1 1 0 0 0));
    [reflexivity | reflexivity |].
  left. cbn. lia.
Defined.

(** ** The wavelength deltas on increasing and on evenly spaced grids *)












(** ** Output names *)

Lemma append_nil_r (s : string) : s ++ "" = s.
Proof. induction s as [|c s IH]; [reflexivity | cbn; now rewrite IH]. Qed.

Lemma append_assoc' (s t u : string) : (s ++ t) ++ u = s ++ (t ++ u).
Proof. induction s as [|c s IH]; [reflexivity | cbn; now rewrite IH]. Qed.

Lemma append_inv_tail (s s' t : string) : s ++ t = s' ++ t -> s = s'.
Proof.
  revert s'. induction s as [|c s IH]; intros [|c' s'] E.
  - reflexivity.
  - apply (f_equal String.length) in E. cbn in E.
    rewrite append_length in E. lia.
  - apply (f_equal String.length) in E. cbn in E.
    rewrite append_length in E. lia.
  - cbn in E. injection E as -> E. f_equal. now apply IH.
Qed.

Lemma lstrip_all_in (chars t : string) :
  all_in chars t = true -> Str.lstrip chars t = "".
Proof.
  induction t as [|c t IH]; [reflexivity |]. cbn [all_in Str.lstrip].
  intros H. apply andb_true_iff in H. destruct H as [-> H]. now apply IH.
Qed.

Lemma rstrip_all_in (chars t : string) :
  all_in chars t = true -> Str.rstrip chars t = "".
Proof.
  induction t as [|c t IH]; [reflexivity |]. cbn [all_in Str.rstrip].
  intros H. apply andb_true_iff in H. destruct H as [Hc H].
  now rewrite (IH H), Hc.
Qed.

Lemma lstrip_append (chars s t : string) :
  all_in chars t = true ->
  Str.lstrip chars (s ++ t)
  = match Str.lstrip chars s with
    | EmptyString => EmptyString
    | kept => kept ++ t
    end.
Proof.
  intros Ht. induction s as [|c s IH].
  - cbn. now apply lstrip_all_in.
  - cbn [append Str.lstrip]. destruct (Str.mem c chars); [exact IH | reflexivity].
Qed.

Lemma rstrip_append (chars s t : string) :
  all_in chars t = true -> Str.rstrip chars (s ++ t) = Str.rstrip chars s.
Proof.
  intros Ht. induction s as [|c s IH].
  - cbn. now apply rstrip_all_in.
  - cbn [append Str.rstrip]. now rewrite IH.
Qed.

(** Stripping ignores a tail made of characters that are stripped. *)
Lemma strip_append (chars s t : string) :
  all_in chars t = true -> Str.strip chars (s ++ t) = Str.strip chars s.
Proof.
  intros Ht. unfold Str.strip. rewrite (lstrip_append _ _ _ Ht).
  destruct (Str.lstrip chars s) as [|c kept]; [reflexivity |].
  now apply rstrip_append.
Qed.

Lemma outputFileName_of_json_name (base : string) :
  outputFileName (base ++ ".json") = Str.strip strip_set base ++ ".nc".
Proof.
  unfold outputFileName, strip_set. now rewrite strip_append.
Qed.

(** X16.  For a file named [base ++ ".json"], the output name is [base]
    stripped of the characters [.], [j], [s], [o], [n] at both ends,
    followed by [".nc"]. *)
Theorem outputFileName_strips_base (base : string) :
  outputFileName (base ++ ".json") = Str.strip strip_set base ++ ".nc".
Proof.
  unfold outputFileName, strip_set. now rewrite strip_append.
Qed.

Lemma lstrip_length (chars s : string) :
  (String.length (Str.lstrip chars s) <= String.length s)%nat.
Proof.
  induction s as [|c s IH]; [reflexivity |]. cbn [Str.lstrip].
  destruct (Str.mem c chars); cbn [String.length]; lia.
Qed.

Lemma rstrip_prefix (chars s : string) :
  exists dropped, s = Str.rstrip chars s ++ dropped.
Proof.
  induction s as [|c s [dropped IH]]; [now exists "" |]. cbn [Str.rstrip].
  destruct (Str.rstrip chars s) as [|k kept] eqn:Hkept.
  - destruct (Str.mem c chars).
    + now exists (String c s).
    + exists s. reflexivity.
  - exists dropped. cbn. f_equal. exact IH.
Qed.

Lemma rstrip_last (chars s front : string) (c : ascii) :
  Str.rstrip chars s = front ++ String c "" -> Str.mem c chars = false.
Proof.
  revert front. induction s as [|d s IH]; intros front; cbn [Str.rstrip].
  - destruct front; discriminate.
  - destruct (Str.rstrip chars s) as [|k kept] eqn:Hkept.
    + destruct (Str.mem d chars) eqn:Hd.
      * destruct front; discriminate.
      * destruct front as [|f [|g front]]; try discriminate.
        now intros [= <-].
    + destruct front as [|f front]; [discriminate |].
      intros [= _ E]. now apply (IH front).
Qed.

Lemma lstrip_head (chars s rest : string) (c : ascii) :
  Str.lstrip chars s = String c rest -> Str.mem c chars = false.
Proof.
  induction s as [|d s IH]; [discriminate |]. cbn [Str.lstrip].
  destruct (Str.mem d chars) eqn:Hd; [exact IH |].
  now intros [= <- _].
Qed.

Lemma rstrip_clean (chars s : string) :
  (forall c front, s = front ++ String c "" -> Str.mem c chars = false) ->
  Str.rstrip chars s = s.
Proof.
  induction s as [|d s IH]; intros Hlast; [reflexivity |]. cbn [Str.rstrip].
  destruct s as [|e s].
  - cbn. now rewrite (Hlast d "" eq_refl).
  - rewrite IH; [reflexivity |].
    intros c front E. apply (Hlast c (String d front)). cbn. now rewrite E.
Qed.

(** Stripping changes nothing exactly on the strings with clean ends. *)
Lemma strip_fixpoint (chars s : string) :
  Str.strip chars s = s <-> clean_ends chars s.
Proof.
  unfold Str.strip, clean_ends. split.
  - intros E. split.
    + intros c rest ->.
      destruct (rstrip_prefix chars (Str.lstrip chars (String c rest)))
        as [dropped Hd].
      rewrite E in Hd. apply (lstrip_head chars (String c rest) (rest ++ dropped)).
      exact Hd.
    + intros c front ->. now apply (rstrip_last _ _ _ _ E).
  - intros [Hfirst Hlast].
    assert (Hl : Str.lstrip chars s = s).
    { destruct s as [|c rest]; [reflexivity |]. cbn [Str.lstrip].
      now rewrite (Hfirst c rest eq_refl). }
    rewrite Hl. now apply rstrip_clean.
Qed.

(** X17.  The output name of [base ++ ".json"] is [base ++ ".nc"] exactly
    when [base] neither begins nor ends with one of the characters [.],
    [j], [s], [o], [n]. *)
Theorem outputFileName_replaces_extension_iff (base : string) :
  outputFileName (base ++ ".json") = base ++ ".nc"
  <-> clean_ends strip_set base.
Proof.
  rewrite outputFileName_of_json_name, <- strip_fixpoint. split.
  - apply append_inv_tail.
  - now intros ->.
Qed.

Lemma path_join_endswith (a b suffix : string) :
  Str.endswith b suffix = true ->
  Str.endswith (path_join a b) suffix = true.
Proof.
  rewrite !endswith_spec. intros [pre ->]. unfold path_join.
  destruct (Str.startswith _ "/"); [now exists pre |].
  destruct (_ || _).
  - exists (a ++ pre). now rewrite append_assoc'.
  - exists (a ++ "/" ++ pre). now rewrite !append_assoc'.
Qed.

(** X18.  Walking a directory, every file that is converted has a path
    ending in [".json"], comes from the walk, and is written to a path
    ending in [".nc"] that joins the output directory and the output name
    of the file. *)
Theorem walk_outputs_members (fileOutputLocation : string)
    (walk : list (string * list string)) (input output : string) :
  In (input, output) (walk_outputs fileOutputLocation walk) ->
  exists filePath fileName members,
    In (filePath, fileName) walk /\ In members fileName
    /\ input = path_join filePath members
    /\ Str.endswith input ".json" = true
    /\ output = path_join fileOutputLocation (outputFileName members)
    /\ Str.endswith output ".nc" = true.
Proof.
  unfold walk_outputs. intros Hin.
  apply in_flat_map in Hin. destruct Hin as [[filePath fileName] [Hwalk Hin]].
  apply in_flat_map in Hin. destruct Hin as [members [Hname Hin]].
  destruct (Str.endswith (path_join filePath members) ".json") eqn:Hjson;
    [| now elim Hin].
  destruct Hin as [[= <- <-]|[]].
  exists filePath, fileName, members. repeat split; try assumption.
  apply path_join_endswith. apply endswith_spec.
  now exists (Str.strip ".json" members).
Qed.

Lemma outputFileName_logger_file :
  outputFileName ("2016-04-07_12-00-07_enviromentlogger" ++ ".json")
  = "2016-04-07_12-00-07_enviromentlogger" ++ ".nc".
Proof.
  apply outputFileName_replaces_extension_iff.
  apply strip_fixpoint. reflexivity.
Defined.

Lemma walk_outputs_members_sample :
  exists filePath fileName members,
    In (filePath, fileName) [("in", ["session.json"; "notes.txt"])]
    /\ In members fileName
    /\ "in/session.json" = path_join filePath members
    /\ Str.endswith "in/session.json" ".json" = true
    /\ "out/essi.nc" = path_join "out" (outputFileName members)
    /\ Str.endswith "out/essi.nc" ".nc" = true.
Proof.
  apply (walk_outputs_members "out" [("in", ["session.json"; "notes.txt"])]).
  left. reflexivity.
Defined.

(** ** The time variable of [main] *)

Lemma seconds_quotient_lt (a b : Z) :
  (a < b)%Z -> inject_Z a / 86400 < inject_Z b / 86400.
Proof.
  intros Hlt. apply Qlt_shift_div_r; [reflexivity |].
  unfold Qdiv. rewrite <- Qmult_assoc, (Qmult_comm (/ 86400)), Qmult_inv_r,
    Qmult_1_r by discriminate.
  now rewrite <- Zlt_Qlt.
Qed.

Lemma main_time_values (loggerReadings : list json) (ts : list struct_time) :
  Forall2 (fun reading t =>
             getitem reading "timestamp" = Ok (JStr (timestamp_of t))
             /\ valid_datetime t = true) loggerReadings ts ->
  exists time,
    main_time loggerReadings = Ok time
    /\ Forall2 (fun days t => days == inject_Z (seconds_since_epoch t) / 86400)
               time ts.
Proof.
  unfold main_time.
  induction 1 as [|reading t readings ts [Hstamp Hvalid] _ [time [Hrun Hall]]].
  - exists []. split; [reflexivity | constructor].
  - destruct (translateTime_seconds _ _ (strptime_timestamp_of t Hvalid))
      as [days [Hdays Eq]].
    exists (days :: time). split.
    + cbn [comprehension]. rewrite Hstamp. cbn [bind translateTime_json].
      rewrite Hdays. cbn [bind]. now rewrite Hrun.
    + now constructor.
Qed.

Lemma increasing_of_chronological (time : list Q) (ts : list struct_time) :
  Forall2 (fun days t => days == inject_Z (seconds_since_epoch t) / 86400)
          time ts ->
  Forall (fun t => valid_datetime t = true) ts ->
  chronological ts -> strictly_increasing time.
Proof.
  induction 1 as [|days t time ts Hdays Hall IH]; intros Hvalid Hchron;
    [exact I |].
  destruct Hall as [|days' u time' ts' Hdays' Hall']; [exact I |].
  inversion Hvalid as [|? ? Ht Hrest]; subst.
  inversion Hrest as [|? ? Hu _]; subst.
  destruct Hchron as [Hlt Hchron].
  split.
  - rewrite Hdays, Hdays'. apply seconds_quotient_lt.
    now apply seconds_since_epoch_lt.
  - apply IH; assumption.
Qed.

(** X19.  When the readings carry zero-padded timestamps of valid dates and
    times in chronological order, the time variable has one value per
    reading and is strictly increasing. *)
Theorem main_time_increasing (loggerReadings : list json)
    (ts : list struct_time) :
  Forall2 (fun reading t =>
             getitem reading "timestamp" = Ok (JStr (timestamp_of t))
             /\ valid_datetime t = true) loggerReadings ts ->
  chronological ts ->
  exists time,
    main_time loggerReadings = Ok time
    /\ List.length time = List.length loggerReadings
    /\ strictly_increasing time.
Proof.
  intros Hreadings Hchron.
  destruct (main_time_values _ _ Hreadings) as [time [Hrun Hvalues]].
  exists time. split; [exact Hrun |]. split.
  - rewrite (Forall2_length Hvalues). symmetry. exact (Forall2_length Hreadings).
  - apply (increasing_of_chronological time ts Hvalues); [| exact Hchron].
    clear -Hreadings. induction Hreadings as [|? ? ? ? [_ Hvalid] _ IH];
      constructor; assumption.
Qed.

Lemma main_time_increasing_sample :
  exists time,
    main_time
      [JObj [("timestamp", JStr "2016.04.07-12:00:07")];
       JObj [("timestamp", JStr "2016.04.07-12:00:12")]]
    = Ok time
    /\ List.length time = 2%nat
    /\ strictly_increasing time.
Proof.
  refine (main_time_increasing
            [JObj [("timestamp", JStr "2016.04.07-12:00:07")];
             JObj [("timestamp", JStr "2016.04.07-12:00:12")]]
            [mk_struct_time 2016 4 7 12 0 7; mk_struct_time 2016 4 7 12 0 12]
            _ _).
  - repeat constructor.
  - split; [| exact I]. do 5 (right; split; [reflexivity |]). reflexivity.
Defined.

(** ** The unit table *)

(** X20.  Every scale factor of [_UNIT_DICTIONARY] is positive, so scaling
    to SI can be undone: a value multiplied by the factor of its unit and
    divided by it again is the value. *)
Theorem unit_scale_can_be_undone
    (label original SI : string) (power v : Q) :
  dict_get _UNIT_DICTIONARY label = Some (UnitDict original SI power) ->
  0 < power /\ v * power / power == v.
Proof.
  intros Hentry. apply dict_get_In in Hentry.
  cbn [In _UNIT_DICTIONARY] in Hentry.
  repeat (destruct Hentry as [Hentry|Hentry];
          [try discriminate Hentry; injection Hentry as _ _ _ <-;
           split; [reflexivity | field] |]).
  now elim Hentry.
Qed.

Lemma unit_scale_can_be_undone_hPa :
  0 < 100 /\ (1013 # 1) * 100 / 100 == 1013 # 1.
Proof.
  exact (unit_scale_can_be_undone "hPa" "hectopascal" "pascal" 100 (1013 # 1)
           eq_refl).
Defined.
